(** * Dashboard.jsx: the attendance dashboard view

    A shallow embedding of [client/src/pages/Dashboard.jsx]: the summary
    reducer [calculateSummary], the effect-driven fetch
    [fetchDashboardData], the 30-second [refreshInterval] callback, the
    manual refresh [onClick] handler and the gating of the rendered view.

    Conventions of the embedding.
    - JavaScript numbers that carry a percentage are IEEE 754 binary64
      doubles, the primitive [float] with its rounded [+], [/] and its
      [<?]; counts ([length], [size]) are [nat], and a count used as a
      number is converted by [number_of_nat].
    - A JavaScript [Set] is the list of its elements in insertion order,
      without duplicates ([JsSet]); [Array.from] returns that list.
    - [stat.student] is a value of an arbitrary type with decidable
      equality, the equality being the one [Set] uses (SameValueZero).
    - An optional field is an [option]; [null] component state is [None].
    - The component state, the notifications, the console and the
      requests sent form a [World]; asynchronous code is written in the
      monad [M] of computations over a [World] that may throw.
    - A flow (the effect's fetch, a timer tick, a click) runs to its end
      on the world it starts from, with the filter its closure captured;
      the interleaving of flows in flight together is outside the
      model.
    - The life of the mounted component is a [Runtime] moved by
      [Action]s.  The effect runs after the first render and after any
      render in which [refreshKey] or [selectedTimeSlot] differs from
      its last run, the cleanup of the last run going first; the
      cleanup also runs at unmount.  An interval is the id
      [setInterval] returned with the filter its callback captured. *)

From stdpp Require Import base decidable option list numbers strings gmap.
From Stdlib Require Import Ascii QArith Floats.

(** ** JavaScript [Set]: insertion-ordered, duplicate-free *)

Module JsSet.
Section JsSet.
Context {A : Type} `{EqDecision A}.

Definition t := list A.

(** [new Set()] *)
Definition empty : t := [].

(** [s.add(x)]: appended when absent, ignored when present. *)
Definition add (x : A) (s : t) : t :=
  if decide (x ∈ s) then s else s ++ [x].

(** [new Set(iterable)] *)
Definition of_list (l : list A) : t :=
  fold_left (λ s x, add x s) l empty.

(** [s.size] *)
Definition size (s : t) : nat := length s.

(** [Array.from(s)] *)
Definition to_array (s : t) : list A := s.
End JsSet.
Global Arguments t : clear implicits.
End JsSet.

(** ** Strings: [split], destructuring and template literals *)

(** [s.split(sep)] for a one-character separator: every occurrence of
    [sep] ends a piece, so the result is never empty. *)
Fixpoint split (sep : ascii) (s : string) : list string :=
  match s with
  | EmptyString => [EmptyString]
  | String c s' =>
      if decide (c = sep) then EmptyString :: split sep s'
      else match split sep s' with
           | [] => [String c EmptyString]
           | piece :: pieces => String c piece :: pieces
           end
  end.

(** A [${x}] hole of a template literal, where [x] was bound by array
    destructuring: a missing element is [undefined] and prints as such. *)
Definition interpolate (x : option string) : string :=
  default "undefined" x.

(** Truthiness of an optional string field: [undefined] and the empty
    string are falsy. *)
Definition truthy (x : option string) : bool :=
  match x with
  | None => false
  | Some s => bool_decide (s ≠ "")
  end.

(** Whether a character occurs in a string. *)
Fixpoint occurs (c : ascii) (s : string) : bool :=
  match s with
  | EmptyString => false
  | String c' s' => bool_decide (c' = c) || occurs c s'
  end.

(** ** Data model *)

(** A row of today's records; only the fields the view reads. *)
Record StudentInfo := {
  name : string;
  registrationNumber : string
}.

Record AttendanceRecord := {
  _id : string;
  record_student : StudentInfo;
  createdAt : string;
  record_startTime : option string;
  record_endTime : option string;
  verificationMethod : string;
  status : string
}.

(** The object the auth context supplies; [None] when no user is set. *)
Record User := { role : string }.

(** The settlement of a request.  The rejection reason is only ever
    logged by the view and is not modelled. *)
Inductive Response (A : Type) :=
  | Resolved (data : A)
  | Rejected.
Global Arguments Resolved {A} data.
Global Arguments Rejected {A}.

(** What the view does to the outside. *)
Inductive Event :=
  | Get (url : string)
  | ToastError (msg : string)
  | ToastSuccess (msg : string)
  | ConsoleError (msg : string)
  | ConsoleLog (msg : string).

Definition is_notification (e : Event) : bool :=
  match e with
  | ToastError _ | ToastSuccess _ => true
  | _ => false
  end.

Definition is_request (e : Event) : option string :=
  match e with
  | Get url => Some url
  | _ => None
  end.

(** The toasts among the events, in order. *)
Definition notifications (t : list Event) : list Event :=
  List.filter is_notification t.

(** The URLs requested among the events, in order. *)
Definition requests (t : list Event) : list string :=
  omap is_request t.

Section Dashboard.
Context {StudentRef : Type} `{Countable StudentRef}.

(** One row of the statistics response. *)
Record AttendanceStat := {
  student : StudentRef;
  presentPercentage : float;
  startTime : option string;
  endTime : option string
}.

(** The object returned by [calculateSummary]. *)
Record Summary := {
  totalStudents : nat;
  averageAttendance : float;
  presentToday : nat;
  belowThreshold : nat
}.

(** The [useState] cells of the component. *)
Record State := {
  stats : option (list AttendanceStat);
  recentAttendance : list AttendanceRecord;
  isLoading : bool;
  refreshKey : nat;
  timeSlots : list string;
  selectedTimeSlot : string
}.

(** Lines 10-15: the state at mount. *)
Definition initialState : State :=
  {| stats := None; recentAttendance := []; isLoading := true;
     refreshKey := 0; timeSlots := []; selectedTimeSlot := "all" |}.

(** The backend and the clock, as the view sees them: the ISO string
    [new Date().toISOString()] returns, and the settlement of a GET by
    URL.  The statistics endpoint yields [AttendanceStat] rows, the
    two record endpoints [AttendanceRecord] rows. *)
Record Env := {
  toISOString : string;
  stats_endpoint : string → Response (list AttendanceStat);
  records_endpoint : string → Response (list AttendanceRecord)
}.

Record World := {
  state : State;
  trace : list Event
}.

(** *** Computations that may throw *)

Inductive Outcome (A : Type) :=
  | Return (a : A)
  | Throw.
Global Arguments Return {A} a.
Global Arguments Throw {A}.

Definition M (A : Type) : Type := World → Outcome A * World.

Definition ret {A} (a : A) : M A := λ w, (Return a, w).

(** Sequencing, [await] included: a throw skips the continuation. *)
Definition bind {A B} (m : M A) (k : A → M B) : M B :=
  λ w, match m w with
       | (Return a, w') => k a w'
       | (Throw, w') => (Throw, w')
       end.

(** [try { body } catch { handler }] and [promise.catch(handler)] *)
Definition catch {A} (body : M A) (handler : M A) : M A :=
  λ w, match body w with
       | (Return a, w') => (Return a, w')
       | (Throw, w') => handler w'
       end.

(** [try { body } finally { final }] and [promise.finally(final)]:
    [final] runs on both outcomes, which it passes on unless it throws
    itself. *)
Definition finally {A} (body : M A) (final : M unit) : M A :=
  λ w, match body w with
       | (o, w') =>
           match final w' with
           | (Return _, w'') => (o, w'')
           | (Throw, w'') => (Throw, w'')
           end
       end.

(** [Promise.all([p, q])]: both are started whatever the other does;
    the result is fulfilled when both are. *)
Definition Promise_all {A B} (p : M A) (q : M B) : M (A * B) :=
  λ w, match p w with
       | (op, w') =>
           match q w' with
           | (oq, w'') =>
               (match op, oq with
                | Return a, Return b => Return (a, b)
                | _, _ => Throw
                end, w'')
           end
       end.

Definition emit (e : Event) : M unit :=
  λ w, (Return (), {| state := state w; trace := trace w ++ [e] |}).

Definition modify (f : State → State) : M unit :=
  λ w, (Return (), {| state := f (state w); trace := trace w |}).

Definition settle {A} (r : Response A) : M A :=
  λ w, match r with
       | Resolved data => (Return data, w)
       | Rejected => (Throw, w)
       end.

Global Instance M_ret : MRet M := @ret.
Global Instance M_bind : MBind M := λ A B k m, bind m k.

(** [api.get(url)] against the statistics endpoint and against a
    record endpoint: the request is sent, then settles. *)
Definition api_get_stats (env : Env) (url : string)
    : M (list AttendanceStat) :=
  emit (Get url);; settle (stats_endpoint env url).

Definition api_get_records (env : Env) (url : string)
    : M (list AttendanceRecord) :=
  emit (Get url);; settle (records_endpoint env url).

(** The [useState] setters. *)
Definition setStats (v : option (list AttendanceStat)) : M unit :=
  modify (λ st,
    {| stats := v; recentAttendance := recentAttendance st;
       isLoading := isLoading st; refreshKey := refreshKey st;
       timeSlots := timeSlots st;
       selectedTimeSlot := selectedTimeSlot st |}).

Definition setRecentAttendance (v : list AttendanceRecord) : M unit :=
  modify (λ st,
    {| stats := stats st; recentAttendance := v;
       isLoading := isLoading st; refreshKey := refreshKey st;
       timeSlots := timeSlots st;
       selectedTimeSlot := selectedTimeSlot st |}).

Definition setIsLoading (v : bool) : M unit :=
  modify (λ st,
    {| stats := stats st; recentAttendance := recentAttendance st;
       isLoading := v; refreshKey := refreshKey st;
       timeSlots := timeSlots st;
       selectedTimeSlot := selectedTimeSlot st |}).

Definition setRefreshKey (f : nat → nat) : M unit :=
  modify (λ st,
    {| stats := stats st; recentAttendance := recentAttendance st;
       isLoading := isLoading st; refreshKey := f (refreshKey st);
       timeSlots := timeSlots st;
       selectedTimeSlot := selectedTimeSlot st |}).

Definition setTimeSlots (v : list string) : M unit :=
  modify (λ st,
    {| stats := stats st; recentAttendance := recentAttendance st;
       isLoading := isLoading st; refreshKey := refreshKey st;
       timeSlots := v;
       selectedTimeSlot := selectedTimeSlot st |}).

Definition setSelectedTimeSlot (v : string) : M unit :=
  modify (λ st,
    {| stats := stats st; recentAttendance := recentAttendance st;
       isLoading := isLoading st; refreshKey := refreshKey st;
       timeSlots := timeSlots st;
       selectedTimeSlot := v |}).

(** *** The effect: [fetchDashboardData], lines 18-57 *)

(** Lines 33-38: the [Set] filled by the [forEach] over the response. *)
Definition slots (data : list AttendanceStat) : JsSet.t string :=
  fold_left
    (λ slots stat,
       if truthy (startTime stat) && truthy (endTime stat)
       then JsSet.add (interpolate (startTime stat) +:+ "-"
                       +:+ interpolate (endTime stat)) slots
       else slots)
    data JsSet.empty.

Definition fetchDashboardData (env : Env) (selectedTimeSlot : string)
    : M unit :=
  finally
    (catch
       (setIsLoading true;;
        let statsUrl := "/api/attendance/stats" in
        let statsUrl :=
          if decide (selectedTimeSlot ≠ "all") then
            let parts := split "-" selectedTimeSlot in
            let startTime := parts !! 0%nat in
            let endTime := parts !! 1%nat in
            statsUrl +:+ "?startTime=" +:+ interpolate startTime
              +:+ "&endTime=" +:+ interpolate endTime
          else statsUrl in
        statsResponse ← api_get_stats env statsUrl;
        setStats (Some statsResponse);;
        setTimeSlots (JsSet.to_array (slots statsResponse));;
        let today := split "T" (toISOString env) !! 0%nat in
        let attendanceUrl := "/api/attendance/date/" +:+ interpolate today in
        let attendanceUrl :=
          if decide (selectedTimeSlot ≠ "all") then
            let parts := split "-" selectedTimeSlot in
            let startTime := parts !! 0%nat in
            let endTime := parts !! 1%nat in
            "/api/attendance/timeslot?date=" +:+ interpolate today
              +:+ "&startTime=" +:+ interpolate startTime
              +:+ "&endTime=" +:+ interpolate endTime
          else attendanceUrl in
        attendanceResponse ← api_get_records env attendanceUrl;
        setRecentAttendance attendanceResponse)
       (emit (ConsoleError "Error fetching dashboard data:");;
        emit (ToastError "Failed to load dashboard data")))
    (setIsLoading false).

(** *** The timer callback of [refreshInterval], lines 62-79 *)

Definition refreshInterval (env : Env) (selectedTimeSlot : string)
    : M unit :=
  let today := split "T" (toISOString env) !! 0%nat in
  let url := "/api/attendance/date/" +:+ interpolate today in
  let url :=
    if decide (selectedTimeSlot ≠ "all") then
      let parts := split "-" selectedTimeSlot in
      let startTime := parts !! 0%nat in
      let endTime := parts !! 1%nat in
      "/api/attendance/timeslot?date=" +:+ interpolate today
        +:+ "&startTime=" +:+ interpolate startTime
        +:+ "&endTime=" +:+ interpolate endTime
    else url in
  catch
    (response ← api_get_records env url;
     setRecentAttendance response;;
     emit (ConsoleLog "Dashboard data refreshed"))
    (emit (ConsoleError "Error refreshing attendance data:")).

(** *** The refresh button's [onClick], lines 124-151 *)

Definition onClick (env : Env) (selectedTimeSlot : string) : M unit :=
  setIsLoading true;;
  setRefreshKey (λ prev, prev + 1)%nat;;
  let today := split "T" (toISOString env) !! 0%nat in
  let statsUrl := "/api/attendance/stats" in
  let attendanceUrl := "/api/attendance/date/" +:+ interpolate today in
  let '(statsUrl, attendanceUrl) :=
    if decide (selectedTimeSlot ≠ "all") then
      let parts := split "-" selectedTimeSlot in
      let startTime := parts !! 0%nat in
      let endTime := parts !! 1%nat in
      (statsUrl +:+ "?startTime=" +:+ interpolate startTime
         +:+ "&endTime=" +:+ interpolate endTime,
       "/api/attendance/timeslot?date=" +:+ interpolate today
         +:+ "&startTime=" +:+ interpolate startTime
         +:+ "&endTime=" +:+ interpolate endTime)
    else (statsUrl, attendanceUrl) in
  finally
    (catch
       ('(statsRes, attendanceRes) ←
          Promise_all (api_get_stats env statsUrl)
                      (api_get_records env attendanceUrl);
        setStats (Some statsRes);;
        setRecentAttendance attendanceRes;;
        emit (ToastSuccess "Dashboard refreshed"))
       (emit (ConsoleError "Error refreshing data:");;
        emit (ToastError "Failed to refresh data")))
    (setIsLoading false).

(** *** The request targets, named

    The value of [statsUrl] at line 29 and of [attendanceUrl] at line
    49, as functions of what the closure captured.  The statements
    below are phrased with them; [fetchDashboardData_run] ties them to
    the requests the code sends. *)

Definition statsUrl (selectedTimeSlot : string) : string :=
  let statsUrl := "/api/attendance/stats" in
  if decide (selectedTimeSlot ≠ "all") then
    let parts := split "-" selectedTimeSlot in
    let startTime := parts !! 0%nat in
    let endTime := parts !! 1%nat in
    statsUrl +:+ "?startTime=" +:+ interpolate startTime
      +:+ "&endTime=" +:+ interpolate endTime
  else statsUrl.

Definition attendanceUrl (env : Env) (selectedTimeSlot : string)
    : string :=
  let today := split "T" (toISOString env) !! 0%nat in
  let attendanceUrl := "/api/attendance/date/" +:+ interpolate today in
  if decide (selectedTimeSlot ≠ "all") then
    let parts := split "-" selectedTimeSlot in
    let startTime := parts !! 0%nat in
    let endTime := parts !! 1%nat in
    "/api/attendance/timeslot?date=" +:+ interpolate today
      +:+ "&startTime=" +:+ interpolate startTime
      +:+ "&endTime=" +:+ interpolate endTime
  else attendanceUrl.

(** The fetch of the effect fails when one of its two requests is
    rejected (the second is only sent once the first has resolved). *)
Definition fetch_fails (env : Env) (selectedTimeSlot : string) : Prop :=
  stats_endpoint env (statsUrl selectedTimeSlot) = Rejected
  ∨ records_endpoint env (attendanceUrl env selectedTimeSlot) = Rejected.

(** *** The summary reducer: [calculateSummary], lines 86-114 *)

(** [stats.length] used as a number: the double of an unsigned integer.
    An array has fewer than 2^32 elements, so nothing is rounded. *)
Definition number_of_nat (n : nat) : float :=
  of_uint63 (Uint63.of_Z (Z.of_nat n)).

(** [stats] and [recentAttendance] are the two pieces of component
    state the closure reads. *)
Definition calculateSummary
    (stats : option (list AttendanceStat))
    (recentAttendance : list AttendanceRecord) : Summary :=
  let zero := {| totalStudents := 0; averageAttendance := 0;
                 presentToday := 0; belowThreshold := 0 |} in
  match stats with
  | None => zero
  | Some stats =>
      if decide (length stats = 0%nat) then zero else
      let uniqueStudents := JsSet.of_list (map student stats) in
      let averageAttendance :=
        (fold_left (λ acc stat, acc + presentPercentage stat) stats 0
         / number_of_nat (length stats))%float in
      let belowThreshold :=
        length (filter (λ stat, (presentPercentage stat <? 75)%float = true)
                       stats) in
      let presentToday := length recentAttendance in
      {| totalStudents := JsSet.size uniqueStudents;
         averageAttendance := averageAttendance;
         presentToday := presentToday;
         belowThreshold := belowThreshold |}
  end.

(** *** Rendering, lines 116-422 *)

(** What is below the header: the spinner, or the summary cards, the
    table of today's records and, possibly, the admin link. *)
Inductive Body :=
  | LoadingSpinner
  | Content (summary : Summary) (table : list AttendanceRecord)
            (adminLink : bool).

Definition Dashboard (user : option User) (st : State) : Body :=
  let summary := calculateSummary (stats st) (recentAttendance st) in
  if isLoading st then LoadingSpinner
  else Content summary (recentAttendance st)
         (match user with
          | Some user => bool_decide (role user = "admin")
          | None => false
          end).

Definition adminLinkRendered (b : Body) : bool :=
  match b with
  | LoadingSpinner => false
  | Content _ _ adminLink => adminLink
  end.

End Dashboard.

Global Arguments AttendanceStat : clear implicits.
Global Arguments State : clear implicits.
Global Arguments Env : clear implicits.
Global Arguments World : clear implicits.

(** ** The notions the specification speaks in *)

(** The number of distinct values in a list. *)
Definition distinct_count `{Countable A} (l : list A) : nat :=
  size (list_to_set l : gset A).

(** The exact value of a double, when it has one (a finite double). *)
Definition exact (x : float) : option Q :=
  match Prim2SF x with
  | S754_zero _ => Some 0%Q
  | S754_finite s m e =>
      Some (inject_Z (if s then Z.neg m else Z.pos m) * Qpower 2 e)%Q
  | S754_infinity _ | S754_nan => None
  end.

(** The arithmetic mean of doubles, taken exactly: the sum of their
    exact values over their number. *)
Fixpoint exact_sum (l : list float) : option Q :=
  match l with
  | [] => Some 0%Q
  | x :: l =>
      match exact x, exact_sum l with
      | Some q, Some r => Some (q + r)%Q
      | _, _ => None
      end
  end.

Definition exact_mean (l : list float) : option Q :=
  match l, exact_sum l with
  | _ :: _, Some q => Some (q / inject_Z (Z.of_nat (length l)))%Q
  | _, _ => None
  end.

(** The double nearest to an integer. *)
Definition nearest_double (z : Z) : float :=
  SF2Prim (binary_normalize prec emax z 0 false).

(** The mean as doubles give it: the values are added to 0 one after
    the other from the left, each addition rounded, and the sum is
    divided by their number, the quotient rounded. *)
Fixpoint ieee_sum_from (acc : float) (l : list float) : float :=
  match l with
  | [] => acc
  | x :: l => ieee_sum_from (acc + x) l
  end.

Definition ieee_mean (l : list float) : float :=
  (ieee_sum_from 0 l / nearest_double (Z.of_nat (length l)))%float.

(** Whether a count, as a number, has exactly the value of the count. *)
Definition count_is_exact (n : nat) : bool :=
  match exact (number_of_nat n) with
  | Some q => Qeq_bool q (inject_Z (Z.of_nat n))
  | None => false
  end.

(** The number of values strictly below a bound. *)
Fixpoint count_below (bound : float) (l : list float) : nat :=
  match l with
  | [] => 0
  | x :: l => (if (x <? bound)%float then 1 else 0) + count_below bound l
  end.

(** The option string a row of the statistics stands for: its two
    times joined by a dash, when it has both and neither is empty. *)
Definition slot_of {StudentRef} (stat : AttendanceStat StudentRef)
    : option string :=
  match startTime stat, endTime stat with
  | Some a, Some b =>
      if decide (a ≠ "" ∧ b ≠ "") then Some (a +:+ "-" +:+ b) else None
  | _, _ => None
  end.

(** The values of a list in the order of their first occurrence. *)
Fixpoint first_occurrences `{EqDecision A} (l : list A) : list A :=
  match l with
  | [] => []
  | x :: l => x :: filter (λ y, y ≠ x) (first_occurrences l)
  end.

(** ** The select, the effect and its timer *)

(** [s.replace(pat, by)] for a one-character pattern: the first
    occurrence only.  ([by] holds no dollar sign here.) *)
Fixpoint replace (pat : ascii) (by_ : string) (s : string) : string :=
  match s with
  | EmptyString => EmptyString
  | String c s' =>
      if decide (c = pat) then by_ +:+ s' else String c (replace pat by_ s')
  end.

Section Lifecycle.
Context {StudentRef : Type} `{Countable StudentRef}.

(** Lines 172-177: the options of the select, each with its [value] and
    its text. *)
Definition timeSlotOptions (st : State StudentRef) : list (string * string) :=
  ("all", "All Time Slots")
  :: map (λ slot, (slot, replace "-" " - " slot)) (timeSlots st).

(** Line 169: the select's [onChange]. *)
Definition onChange (value : string) : M (StudentRef:=StudentRef) unit :=
  setSelectedTimeSlot value.

(** The mounted component as the browser holds it: the world, the
    intervals set and not yet cleared (the id [setInterval] returned and
    the filter the callback captured), the id the next [setInterval]
    returns, the interval the cleanup returned by the last run of the
    effect clears, and the dependencies [[refreshKey, selectedTimeSlot]]
    of that run. *)
Record Runtime := {
  world : World StudentRef;
  mounted : bool;
  intervals : list (nat * string);
  next_interval : nat;
  cleanup : option nat;
  deps : nat * string
}.

Definition set_world (w : World StudentRef) (r : Runtime) : Runtime :=
  {| world := w; mounted := mounted r; intervals := intervals r;
     next_interval := next_interval r; cleanup := cleanup r;
     deps := deps r |}.

(** [clearInterval(id)] *)
Definition clearInterval (id : nat) (l : list (nat * string))
    : list (nat * string) :=
  filter (λ t, t.1 ≠ id) l.

(** The filter captured by the callback of a live interval. *)
Fixpoint interval_callback (id : nat) (l : list (nat * string))
    : option string :=
  match l with
  | [] => None
  | (i, selectedTimeSlot) :: l =>
      if decide (i = id) then Some selectedTimeSlot
      else interval_callback id l
  end.

(** Lines 17-83, one run of the effect: the fetch, then [setInterval];
    the closures capture the filter of the render that scheduled the
    run, and the returned cleanup clears the interval just set. *)
Definition useEffect (env : Env StudentRef) (r : Runtime) : Runtime :=
  let st := state (world r) in
  let w := (fetchDashboardData env (selectedTimeSlot st) (world r)).2 in
  let refreshInterval := next_interval r in
  {| world := w; mounted := true;
     intervals := intervals r ++ [(refreshInterval, selectedTimeSlot st)];
     next_interval := S refreshInterval;
     cleanup := Some refreshInterval;
     deps := (refreshKey st, selectedTimeSlot st) |}.

(** Line 82: the cleanup. *)
Definition run_cleanup (r : Runtime) : Runtime :=
  match cleanup r with
  | Some refreshInterval =>
      {| world := world r; mounted := mounted r;
         intervals := clearInterval refreshInterval (intervals r);
         next_interval := next_interval r; cleanup := None;
         deps := deps r |}
  | None => r
  end.

(** Line 83, by the rule of [useEffect]: after a render in which a
    dependency differs from the last run's, the cleanup runs and then
    the effect again. *)
Definition commit (env : Env StudentRef) (r : Runtime) : Runtime :=
  let st := state (world r) in
  if decide (deps r = (refreshKey st, selectedTimeSlot st)) then r
  else useEffect env (run_cleanup r).

(** The first render and the effect after it. *)
Definition mount (env : Env StudentRef) : Runtime :=
  useEffect env
    {| world := {| state := initialState; trace := [] |};
       mounted := true; intervals := []; next_interval := 0;
       cleanup := None; deps := (0%nat, "all") |}.

(** What can happen to the mounted component. *)
Inductive Action :=
  | Select (value : string)
  | Click
  | Tick (id : nat)
  | Unmount.

(** One happening.  [env] answers the requests of the handler or of the
    timer callback, [env'] those of the effect when it runs again.  A
    timer fires when its interval is live, mounted or not; the handlers
    belong to the mounted component. *)
Definition step (env env' : Env StudentRef) (a : Action) (r : Runtime)
    : Runtime :=
  match a with
  | Select value =>
      if mounted r then
        commit env' (set_world (onChange value (world r)).2 r)
      else r
  | Click =>
      if mounted r then
        let selectedTimeSlot := selectedTimeSlot (state (world r)) in
        commit env' (set_world (onClick env selectedTimeSlot (world r)).2 r)
      else r
  | Tick id =>
      match interval_callback id (intervals r) with
      | Some selectedTimeSlot =>
          set_world (refreshInterval env selectedTimeSlot (world r)).2 r
      | None => r
      end
  | Unmount =>
      if mounted r then
        let r := run_cleanup r in
        {| world := world r; mounted := false; intervals := intervals r;
           next_interval := next_interval r; cleanup := cleanup r;
           deps := deps r |}
      else r
  end.

Definition run (steps : list (Env StudentRef * Env StudentRef * Action))
    (r : Runtime) : Runtime :=
  fold_left (λ r '(env, env', a), step env env' a r) steps r.

End Lifecycle.

Global Arguments Runtime : clear implicits.

(** The clicks among the happenings, up to the unmount. *)
Fixpoint clicks {E} (steps : list (E * E * Action)) : nat :=
  match steps with
  | [] => 0
  | (_, _, Click) :: steps => S (clicks steps)
  | (_, _, Unmount) :: _ => 0
  | _ :: steps => clicks steps
  end.

(** The filter selected last before the unmount, [sel] when none was. *)
Fixpoint last_selected {E} (sel : string) (steps : list (E * E * Action))
    : string :=
  match steps with
  | [] => sel
  | (_, _, Select value) :: steps => last_selected value steps
  | (_, _, Unmount) :: _ => sel
  | _ :: steps => last_selected sel steps
  end.

(** What the component keeps true between happenings: the select never
    offers a value twice, and while mounted exactly one interval is
    live, the one the pending cleanup clears, whose callback captured
    the filter now selected, the effect having last run for the present
    dependencies; once unmounted no interval is live. *)
Definition effect_invariant {StudentRef} (r : Runtime StudentRef) : Prop :=
  let st := state (world r) in
  NoDup ("all" :: timeSlots st)
  ∧ if mounted r then
      ∃ id, intervals r = [(id, selectedTimeSlot st)]
            ∧ cleanup r = Some id
            ∧ deps r = (refreshKey st, selectedTimeSlot st)
    else intervals r = [].

(** ** Sample data *)

Module Sample.
Definition stat (s : string) (p : float) (a b : option string)
    : AttendanceStat string :=
  {| student := s; presentPercentage := p;
     startTime := a; endTime := b |}.

(** The three rows of the specification's worked example. *)
Definition three : list (AttendanceStat string) :=
  [stat "A" 50 None None; stat "A" 90 None None; stat "B" 60 None None].

Definition record (id : string) : AttendanceRecord :=
  {| _id := id;
     record_student := {| name := "Asha"; registrationNumber := "R-1" |};
     createdAt := "2025-03-04T09:05:00.000Z";
     record_startTime := Some "09:00"; record_endTime := Some "10:00";
     verificationMethod := "face"; status := "present" |}.

(** A response with a repeated slot, a row without times and a row
    whose start time is the empty string. *)
Definition slotted : list (AttendanceStat string) :=
  [stat "A" 50 (Some "09:00") (Some "10:00");
   stat "B" 60 None (Some "11:00");
   stat "C" 70 (Some "09:00") (Some "10:00");
   stat "D" 80 (Some "") (Some "12:00");
   stat "E" 90 (Some "10:00") (Some "11:00")].

Definition clock : string := "2025-03-04T10:11:12.000Z".

(** Both requests succeed. *)
Definition online : Env string :=
  {| toISOString := clock;
     stats_endpoint := λ _, Resolved slotted;
     records_endpoint := λ _, Resolved [record "r1"; record "r2"] |}.

(** The statistics arrive, today's records do not. *)
Definition records_down : Env string :=
  {| toISOString := clock;
     stats_endpoint := λ _, Resolved slotted;
     records_endpoint := λ _, Rejected |}.

(** Nothing arrives. *)
Definition offline : Env string :=
  {| toISOString := clock;
     stats_endpoint := λ _, Rejected;
     records_endpoint := λ _, Rejected |}.

Definition mounted : World string :=
  {| state := initialState; trace := [] |}.

Definition admin : User := {| role := "admin" |}.
Definition teacher : User := {| role := "teacher" |}.
End Sample.

(** ** More sample data *)

Module Scenario.
(** Three rows of the double nearest to 0.1, the number JavaScript reads
    [0.1] as. *)
Definition tenths : list (AttendanceStat string) :=
  [Sample.stat "A" 0x1.999999999999ap-4 None None;
   Sample.stat "B" 0x1.999999999999ap-4 None None;
   Sample.stat "C" 0x1.999999999999ap-4 None None].

(** Rows of the doubles nearest to 0.1, 0.2 and 0.3, and the same rows
    from the last to the first. *)
Definition rising : list (AttendanceStat string) :=
  [Sample.stat "A" 0x1.999999999999ap-4 None None;
   Sample.stat "B" 0x1.999999999999ap-3 None None;
   Sample.stat "C" 0x1.3333333333333p-2 None None].

Definition falling : list (AttendanceStat string) :=
  [Sample.stat "C" 0x1.3333333333333p-2 None None;
   Sample.stat "B" 0x1.999999999999ap-3 None None;
   Sample.stat "A" 0x1.999999999999ap-4 None None].

(** The worked example with its first two rows exchanged. *)
Definition three_swapped : list (AttendanceStat string) :=
  [Sample.stat "A" 90 None None; Sample.stat "A" 50 None None;
   Sample.stat "B" 60 None None].

(** The statistics endpoint answers with no rows. *)
Definition no_rows : Env string :=
  {| toISOString := Sample.clock;
     stats_endpoint := λ _, Resolved [];
     records_endpoint := λ _, Resolved [] |}.

(** A world in which the morning slot is selected. *)
Definition morning_selected : World string :=
  {| state :=
       {| stats := Some Sample.slotted; recentAttendance := [];
          isLoading := false; refreshKey := 0;
          timeSlots := ["09:00-10:00"; "10:00-11:00"];
          selectedTimeSlot := "09:00-10:00" |};
     trace := [] |}.

(** A session: select the morning slot, let the timer set on mount tick,
    let the live timer tick, click, unmount, and let both timers tick
    once more. *)
Definition session : list (Env string * Env string * Action) :=
  [(Sample.online, Sample.online, Select "09:00-10:00");
   (Sample.online, Sample.online, Tick 0);
   (Sample.online, Sample.online, Tick 1);
   (Sample.records_down, Sample.online, Click);
   (Sample.online, Sample.online, Unmount);
   (Sample.online, Sample.online, Tick 1);
   (Sample.online, Sample.online, Tick 2)].
End Scenario.

(** ** Facts about [JsSet] *)

Section JsSet_facts.
Context {A : Type} `{Countable A}.
Implicit Types (x y : A) (s : JsSet.t A) (l : list A).

Lemma elem_of_add x y s : y ∈ JsSet.add x s ↔ y = x ∨ y ∈ s.
Proof.
  unfold JsSet.add. case_decide as Hin.
  - split; [by right | intros [->|]; done].
  - rewrite elem_of_app, list_elem_of_singleton. tauto.
Qed.

Lemma NoDup_add x s : NoDup s → NoDup (JsSet.add x s).
Proof.
  intros Hs. unfold JsSet.add. case_decide as Hin; [done|].
  apply NoDup_app. split_and!; [done| |apply NoDup_singleton].
  intros y Hy ->%list_elem_of_singleton. done.
Qed.

(** Adding the elements of [l] one by one to [s]. *)
Lemma elem_of_add_all l s y :
  y ∈ fold_left (λ s x, JsSet.add x s) l s ↔ y ∈ s ∨ y ∈ l.
Proof.
  revert s. induction l as [|x l IH]; intros s; simpl.
  - rewrite elem_of_nil. tauto.
  - rewrite IH, elem_of_add, elem_of_cons. tauto.
Qed.

Lemma NoDup_add_all l s :
  NoDup s → NoDup (fold_left (λ s x, JsSet.add x s) l s).
Proof.
  revert s. induction l as [|x l IH]; intros s Hs; simpl; [done|].
  by apply IH, NoDup_add.
Qed.

Lemma elem_of_of_list l y : y ∈ JsSet.of_list l ↔ y ∈ l.
Proof.
  unfold JsSet.of_list, JsSet.empty.
  rewrite elem_of_add_all, elem_of_nil. tauto.
Qed.

Lemma NoDup_of_list l : NoDup (JsSet.of_list l).
Proof. apply NoDup_add_all, NoDup_nil_2. Qed.

(** The size of the [Set] built from a list is the number of distinct
    values of the list. *)
Lemma size_of_list l : JsSet.size (JsSet.of_list l) = distinct_count l.
Proof.
  unfold JsSet.size, distinct_count.
  rewrite <-(size_list_to_set (C:=gset A) (JsSet.of_list l))
    by apply NoDup_of_list.
  f_equal. apply set_eq. intros y.
  by rewrite !elem_of_list_to_set, elem_of_of_list.
Qed.
End JsSet_facts.

(** ** The summary reducer *)

Section calculateSummary_facts.
Context {StudentRef : Type} `{Countable StudentRef}.
Implicit Types (stats : list (AttendanceStat StudentRef))
               (records : list AttendanceRecord).

(** The [reduce] of line 100 adds the percentages to its seed, from the
    left. *)
Lemma reduce_sum stats (seed : float) :
  fold_left (λ acc stat, acc + presentPercentage stat)%float stats seed
  = ieee_sum_from seed (presentPercentage <$> stats).
Proof.
  revert seed. induction stats as [|stat stats IH]; intros seed; [done|].
  simpl. by rewrite IH.
Qed.

(** The [filter] of line 103 keeps the rows below the bound. *)
Lemma filter_count_below stats (bound : float) :
  length (filter (λ stat, (presentPercentage stat <? bound)%float = true)
                 stats)
  = count_below bound (presentPercentage <$> stats).
Proof.
  induction stats as [|stat stats IH]; [done|].
  rewrite filter_cons. simpl.
  destruct (presentPercentage stat <? bound)%float; simpl; by rewrite IH.
Qed.

(** The number of an array length is the double nearest to it. *)
Lemma number_of_nat_nearest (n : nat) :
  (Z.of_nat n < 2 ^ 63)%Z → number_of_nat n = nearest_double (Z.of_nat n).
Proof.
  intros Hn. unfold number_of_nat, nearest_double.
  rewrite <-(SF2Prim_Prim2SF (of_uint63 _)), of_uint63_spec.
  do 2 f_equal. rewrite Uint63.of_Z_spec. apply Z.mod_small.
  split; [lia|done].
Qed.

(** Up to 1024 at least, it has exactly the value of the length. *)
Lemma number_of_nat_exact (n : nat) :
  (n ≤ 1024)%nat → count_is_exact n = true.
Proof.
  intros Hn.
  assert (forallb count_is_exact (seq 0 1025) = true) as Hall
    by (vm_compute; reflexivity).
  apply (proj1 (forallb_forall _ _) Hall), in_seq. lia.
Qed.

(** On a non-empty array the guard of line 87 is passed. *)
Lemma calculateSummary_unfold stats records :
  stats ≠ [] →
  calculateSummary (Some stats) records
  = {| totalStudents := JsSet.size (JsSet.of_list (student <$> stats));
       averageAttendance :=
         (fold_left (λ acc stat, acc + presentPercentage stat) stats 0
          / number_of_nat (length stats))%float;
       presentToday := length records;
       belowThreshold :=
         length (filter (λ stat, (presentPercentage stat <? 75)%float = true)
                        stats) |}.
Proof.
  intros Hne. unfold calculateSummary.
  case_decide as Hlen; [|done].
  by apply length_zero_iff_nil in Hlen.
Qed.

(** C1, as the code has it.  For a non-empty statistics array, whatever
    the records: [totalStudents] is the number of distinct [student]
    values, [belowThreshold] is the number of rows whose
    [presentPercentage] is strictly below 75, and [averageAttendance] is
    the mean as doubles give it: the percentages added to 0 from the
    left, each addition rounded, over the number of rows, the quotient
    rounded.  (An array has fewer than 2^32 rows; the conversion of the
    length is the one of an unsigned 63-bit integer.) *)
Theorem calculateSummary_nonempty stats records :
  stats ≠ [] → (Z.of_nat (length stats) < 2 ^ 63)%Z →
  let summary := calculateSummary (Some stats) records in
  totalStudents summary = distinct_count (student <$> stats)
  ∧ averageAttendance summary = ieee_mean (presentPercentage <$> stats)
  ∧ belowThreshold summary
    = count_below 75 (presentPercentage <$> stats).
Proof.
  intros Hne Hlen summary. subst summary.
  rewrite calculateSummary_unfold by done. simpl.
  split_and!.
  - apply size_of_list.
  - unfold ieee_mean.
    by rewrite reduce_sum, length_fmap, number_of_nat_nearest.
  - apply filter_count_below.
Qed.

(** C2, as the code has it.  [presentToday] is the length of the
    records array, with no deduplication and no filtering, whenever the
    statistics array is non-empty; behind the guard of line 87 (no
    statistics, or an empty array) it is 0 whatever the records. *)
Theorem presentToday_guarded (stats : option (list (AttendanceStat StudentRef)))
    records :
  presentToday (calculateSummary stats records)
  = match stats with
    | Some (_ :: _) => length records
    | Some [] | None => 0%nat
    end.
Proof. by destruct stats as [[|stat stats]|]. Qed.

(** C3.  On empty arrays the summary is all zeros; the function is
    total, so nothing is thrown.  The same holds for the [null]
    statistics of the first render. *)
Theorem calculateSummary_empty :
  calculateSummary (StudentRef:=StudentRef) (Some []) []
  = {| totalStudents := 0; averageAttendance := 0;
       presentToday := 0; belowThreshold := 0 |}
  ∧ calculateSummary (StudentRef:=StudentRef) None []
    = {| totalStudents := 0; averageAttendance := 0;
         presentToday := 0; belowThreshold := 0 |}.
Proof. done. Qed.
End calculateSummary_facts.

(** The worked example of the specification, evaluated on the code: the
    average is the double nearest to 200/3, which the division of the
    doubles 200 and 3 gives. *)
Example calculateSummary_three :
  calculateSummary (Some Sample.three) [Sample.record "r1"]
  = {| totalStudents := 2; averageAttendance := 200 / 3;
       presentToday := 1; belowThreshold := 2 |}.
Proof. reflexivity. Qed.

(** C1 at the worked example: two students, the double nearest to 200/3,
    two rows below the threshold. *)
Lemma calculateSummary_nonempty_witness :
  Sample.three ≠ []
  ∧ (Z.of_nat (length Sample.three) < 2 ^ 63)%Z
  ∧ let summary := calculateSummary (Some Sample.three) [] in
    totalStudents summary = 2%nat
    ∧ averageAttendance summary = (200 / 3)%float
    ∧ belowThreshold summary = 2%nat.
Proof.
  split; [discriminate|]. split; [reflexivity|]. cbv zeta.
  destruct (calculateSummary_nonempty Sample.three []
              ltac:(discriminate) eq_refl) as (Htotal & Haverage & Hbelow).
  rewrite Htotal, Haverage, Hbelow.
  split_and!; [by vm_compute|reflexivity|reflexivity].
Defined.

(** C1 as stated fails: for three rows of the double nearest to 0.1 the
    exact arithmetic mean is that double, and the code returns the next
    one up, 0.10000000000000002. *)
Lemma averageAttendance_counterexample :
  ¬ (∃ average mean,
       exact (averageAttendance
                (calculateSummary (Some Scenario.tenths) []))
       = Some average
       ∧ exact_mean (presentPercentage <$> Scenario.tenths) = Some mean
       ∧ average == mean)%Q.
Proof.
  intros (average & mean & Haverage & Hmean & Heq).
  vm_compute in Haverage, Hmean.
  injection Haverage as <-. injection Hmean as <-.
  vm_compute in Heq. discriminate Heq.
Qed.

(** The exact value of some doubles: a half, minus 200, and none for
    what is not a number or not finite. *)
Example exact_values :
  (∃ q, exact 0x1p-1 = Some q ∧ (q == 1 # 2)%Q)
  ∧ (∃ q, exact (-200) = Some q ∧ (q == -200 # 1)%Q)
  ∧ exact nan = None ∧ exact infinity = None.
Proof.
  split_and!; try reflexivity; eexists; (split; [vm_compute|]); reflexivity.
Qed.

(** A percentage that is not a number: the row is not below the
    threshold, and the average is not a number either. *)
Example calculateSummary_nan :
  let summary :=
    calculateSummary
      (Some [Sample.stat "A" 50 None None; Sample.stat "B" nan None None])
      [] in
  belowThreshold summary = 1%nat
  ∧ is_nan (averageAttendance summary) = true.
Proof. done. Qed.

(** The worked example itself: the average returned is not exactly
    200/3, which no double is. *)
Example calculateSummary_three_inexact :
  ∃ average mean,
    exact (averageAttendance (calculateSummary (Some Sample.three) []))
    = Some average
    ∧ exact_mean (presentPercentage <$> Sample.three) = Some mean
    ∧ (mean == 200 # 3)%Q ∧ ¬ (average == mean)%Q.
Proof.
  eexists _, _. split; [vm_compute; reflexivity|].
  split; [vm_compute; reflexivity|]. split; [reflexivity|].
  intros Heq. vm_compute in Heq. discriminate Heq.
Qed.

(** C2 as stated fails: with an empty statistics array and one record,
    [presentToday] is 0, not 1. *)
Lemma presentToday_counterexample :
  presentToday
    (calculateSummary (StudentRef:=string) (Some []) [Sample.record "r1"])
  ≠ length [Sample.record "r1"].
Proof. discriminate. Qed.

(** ** Strings *)

Section split_facts.
Implicit Types (c : ascii) (a b : string).

Lemma split_nonempty c a : split c a ≠ [].
Proof.
  destruct a as [|c' a]; simpl; [done|].
  case_decide; [done|]. by destruct (split c a).
Qed.

(** Without the separator there is one piece, the string itself. *)
Lemma split_absent c a : occurs c a = false → split c a = [a].
Proof.
  induction a as [|c' a IH]; simpl; [done|].
  intros [Hc Ha]%orb_false_elim. apply bool_decide_eq_false in Hc.
  rewrite decide_False by done. by rewrite IH.
Qed.

(** The first piece ends at the first separator. *)
Lemma split_first c a b :
  occurs c a = false → split c (a +:+ String c b) = a :: split c b.
Proof.
  induction a as [|c' a IH]; simpl.
  - intros _. by rewrite decide_True.
  - intros [Hc Ha]%orb_false_elim. apply bool_decide_eq_false in Hc.
    rewrite decide_False by done. by rewrite IH.
Qed.

Lemma occurs_app c a b : occurs c (a +:+ b) = occurs c a || occurs c b.
Proof.
  induction a as [|c' a IH]; simpl; [done|]. by rewrite IH, orb_assoc.
Qed.

(** A well-formed filter splits into its two times. *)
Lemma split_slot a b :
  occurs "-" a = false → occurs "-" b = false →
  split "-" (a +:+ "-" +:+ b) = [a; b].
Proof.
  intros Ha Hb. change ("-" +:+ b) with (String "-" b).
  by rewrite split_first, split_absent.
Qed.
End split_facts.

(** ** The three flows *)

Ltac run :=
  cbv [finally catch Promise_all mbind M_bind bind mret M_ret ret emit
       modify settle api_get_stats api_get_records setStats setTimeSlots
       setRecentAttendance setIsLoading setRefreshKey];
  cbn [state trace stats recentAttendance isLoading refreshKey timeSlots
       selectedTimeSlot fst snd].

Section flows.
Context {StudentRef : Type} `{Countable StudentRef}.
Implicit Types (env : Env StudentRef) (w : World StudentRef)
               (sel : string) (data : list (AttendanceStat StudentRef)).

(** *** The requests are sent to the named targets *)

Lemma fetchDashboardData_run env sel w :
  fetchDashboardData env sel w
  = finally
      (catch
         (setIsLoading true;;
          statsResponse ← api_get_stats env (statsUrl sel);
          setStats (Some statsResponse);;
          setTimeSlots (JsSet.to_array (slots statsResponse));;
          attendanceResponse ← api_get_records env (attendanceUrl env sel);
          setRecentAttendance attendanceResponse)
         (emit (ConsoleError "Error fetching dashboard data:");;
          emit (ToastError "Failed to load dashboard data")))
      (setIsLoading false) w.
Proof. reflexivity. Qed.

Lemma refreshInterval_run env sel w :
  refreshInterval env sel w
  = catch
      (response ← api_get_records env (attendanceUrl env sel);
       setRecentAttendance response;;
       emit (ConsoleLog "Dashboard data refreshed"))
      (emit (ConsoleError "Error refreshing attendance data:")) w.
Proof. reflexivity. Qed.

Lemma onClick_run env sel w :
  onClick env sel w
  = (setIsLoading true;;
     setRefreshKey (λ prev, prev + 1)%nat;;
     finally
       (catch
          ('(statsRes, attendanceRes) ←
             Promise_all (api_get_stats env (statsUrl sel))
                         (api_get_records env (attendanceUrl env sel));
           setStats (Some statsRes);;
           setRecentAttendance attendanceRes;;
           emit (ToastSuccess "Dashboard refreshed"))
          (emit (ConsoleError "Error refreshing data:");;
           emit (ToastError "Failed to refresh data")))
       (setIsLoading false)) w.
Proof.
  unfold onClick, statsUrl, attendanceUrl.
  by destruct (decide (sel ≠ "all")).
Qed.

(** *** What each flow leaves behind, by the way the requests settle *)

Lemma fetchDashboardData_cases env sel w :
  fetchDashboardData env sel w
  = (Return (),
     match stats_endpoint env (statsUrl sel) with
     | Rejected =>
         {| state :=
              {| stats := stats (state w);
                 recentAttendance := recentAttendance (state w);
                 isLoading := false;
                 refreshKey := refreshKey (state w);
                 timeSlots := timeSlots (state w);
                 selectedTimeSlot := selectedTimeSlot (state w) |};
            trace :=
              trace w ++ [Get (statsUrl sel);
                          ConsoleError "Error fetching dashboard data:";
                          ToastError "Failed to load dashboard data"] |}
     | Resolved data =>
         match records_endpoint env (attendanceUrl env sel) with
         | Rejected =>
             {| state :=
                  {| stats := Some data;
                     recentAttendance := recentAttendance (state w);
                     isLoading := false;
                     refreshKey := refreshKey (state w);
                     timeSlots := JsSet.to_array (slots data);
                     selectedTimeSlot := selectedTimeSlot (state w) |};
                trace :=
                  trace w ++ [Get (statsUrl sel);
                              Get (attendanceUrl env sel);
                              ConsoleError "Error fetching dashboard data:";
                              ToastError "Failed to load dashboard data"] |}
         | Resolved records =>
             {| state :=
                  {| stats := Some data;
                     recentAttendance := records;
                     isLoading := false;
                     refreshKey := refreshKey (state w);
                     timeSlots := JsSet.to_array (slots data);
                     selectedTimeSlot := selectedTimeSlot (state w) |};
                trace :=
                  trace w ++ [Get (statsUrl sel);
                              Get (attendanceUrl env sel)] |}
         end
     end).
Proof.
  rewrite fetchDashboardData_run. run.
  destruct (stats_endpoint env (statsUrl sel)) as [data|];
    [destruct (records_endpoint env (attendanceUrl env sel)) as [records|]|];
    run; by rewrite <-?(assoc_L (++)).
Qed.

Lemma refreshInterval_cases env sel w :
  refreshInterval env sel w
  = (Return (),
     match records_endpoint env (attendanceUrl env sel) with
     | Resolved records =>
         {| state :=
              {| stats := stats (state w);
                 recentAttendance := records;
                 isLoading := isLoading (state w);
                 refreshKey := refreshKey (state w);
                 timeSlots := timeSlots (state w);
                 selectedTimeSlot := selectedTimeSlot (state w) |};
            trace :=
              trace w ++ [Get (attendanceUrl env sel);
                          ConsoleLog "Dashboard data refreshed"] |}
     | Rejected =>
         {| state := state w;
            trace :=
              trace w ++ [Get (attendanceUrl env sel);
                          ConsoleError "Error refreshing attendance data:"] |}
     end).
Proof.
  rewrite refreshInterval_run. run.
  destruct (records_endpoint env (attendanceUrl env sel)) as [records|];
    run; by rewrite <-?(assoc_L (++)).
Qed.

Lemma onClick_cases env sel w :
  onClick env sel w
  = (Return (),
     match stats_endpoint env (statsUrl sel),
           records_endpoint env (attendanceUrl env sel) with
     | Resolved data, Resolved records =>
         {| state :=
              {| stats := Some data;
                 recentAttendance := records;
                 isLoading := false;
                 refreshKey := refreshKey (state w) + 1;
                 timeSlots := timeSlots (state w);
                 selectedTimeSlot := selectedTimeSlot (state w) |};
            trace :=
              trace w ++ [Get (statsUrl sel); Get (attendanceUrl env sel);
                          ToastSuccess "Dashboard refreshed"] |}
     | _, _ =>
         {| state :=
              {| stats := stats (state w);
                 recentAttendance := recentAttendance (state w);
                 isLoading := false;
                 refreshKey := refreshKey (state w) + 1;
                 timeSlots := timeSlots (state w);
                 selectedTimeSlot := selectedTimeSlot (state w) |};
            trace :=
              trace w ++ [Get (statsUrl sel); Get (attendanceUrl env sel);
                          ConsoleError "Error refreshing data:";
                          ToastError "Failed to refresh data"] |}
     end).
Proof.
  rewrite onClick_run. run.
  destruct (stats_endpoint env (statsUrl sel)) as [data|],
           (records_endpoint env (attendanceUrl env sel)) as [records|];
    run; by rewrite <-?(assoc_L (++)).
Qed.

(** *** The time-slot options *)

(** The [forEach] of lines 34-38 adds, in order, the option strings the
    rows stand for. *)
Lemma slots_fold data (s : JsSet.t string) :
  fold_left
    (λ slots stat,
       if truthy (startTime stat) && truthy (endTime stat)
       then JsSet.add (interpolate (startTime stat) +:+ "-"
                       +:+ interpolate (endTime stat)) slots
       else slots)
    data s
  = fold_left (λ s x, JsSet.add x s) (omap slot_of data) s.
Proof.
  revert s. induction data as [|stat data IH]; intros s; [done|].
  simpl. rewrite IH. unfold slot_of.
  destruct (startTime stat) as [a|], (endTime stat) as [b|]; simpl;
    try done; [|by rewrite andb_false_r].
  destruct (decide (a ≠ "" ∧ b ≠ "")) as [[Ha Hb]|Hab].
  - by rewrite !bool_decide_eq_true_2.
  - destruct (decide (a = "")) as [->|Ha]; [done|].
    destruct (decide (b = "")) as [->|Hb]; [by rewrite andb_false_r|].
    by destruct Hab.
Qed.

Lemma slots_of_list data : slots data = JsSet.of_list (omap slot_of data).
Proof. apply slots_fold. Qed.

Lemma slot_of_Some (stat : AttendanceStat StudentRef) s :
  slot_of stat = Some s
  ↔ ∃ a b, startTime stat = Some a ∧ endTime stat = Some b
           ∧ a ≠ "" ∧ b ≠ "" ∧ s = a +:+ "-" +:+ b.
Proof.
  unfold slot_of. split.
  - destruct (startTime stat) as [a|], (endTime stat) as [b|]; try done.
    case_decide as Hab; [|done]. intros [= <-].
    destruct Hab as [Ha Hb]. by exists a, b.
  - intros (a & b & -> & -> & Ha & Hb & ->). by rewrite decide_True.
Qed.

Lemma slot_of_None (stat : AttendanceStat StudentRef) :
  startTime stat = None ∨ startTime stat = Some ""
  ∨ endTime stat = None ∨ endTime stat = Some "" →
  slot_of stat = None.
Proof.
  unfold slot_of. intros [-> | [-> | [-> | ->]]]; try done.
  - destruct (endTime stat); [|done].
    case_decide as Hab; [by destruct Hab|done].
  - by destruct (startTime stat).
  - destruct (startTime stat); [|done].
    case_decide as Hab; [by destruct Hab|done].
Qed.

(** The options computed from a response: no string twice, and exactly
    the strings of the rows that have both times. *)
Lemma NoDup_slots data : NoDup (slots data).
Proof. rewrite slots_of_list. apply NoDup_of_list. Qed.

Lemma elem_of_slots data s :
  s ∈ slots data
  ↔ ∃ stat a b, stat ∈ data
                ∧ startTime stat = Some a ∧ endTime stat = Some b
                ∧ a ≠ "" ∧ b ≠ "" ∧ s = a +:+ "-" +:+ b.
Proof.
  rewrite slots_of_list, elem_of_of_list, list_elem_of_omap. split.
  - intros (stat & Hin & (a & b & Hstat)%slot_of_Some).
    by exists stat, a, b.
  - intros (stat & a & b & Hin & Hstat). exists stat. split; [done|].
    apply slot_of_Some. by exists a, b.
Qed.

(** C5, as the code has it.  Once the statistics request of
    [fetchDashboardData] has resolved, the time-slot options hold no
    string twice, and hold exactly the strings [startTime-endTime] of
    the rows of that response that have both times, neither of them
    empty.  The statistics request of the refresh click does not touch
    the options. *)
Theorem timeSlots_after_stats env sel w data :
  stats_endpoint env (statsUrl sel) = Resolved data →
  (let options := timeSlots (state (fetchDashboardData env sel w).2) in
   NoDup options
   ∧ ∀ s, s ∈ options
          ↔ ∃ stat a b, stat ∈ data
                        ∧ startTime stat = Some a ∧ endTime stat = Some b
                        ∧ a ≠ "" ∧ b ≠ "" ∧ s = a +:+ "-" +:+ b)
  ∧ timeSlots (state (onClick env sel w).2) = timeSlots (state w).
Proof.
  intros Hstats. split.
  - intros options.
    assert (options = JsSet.to_array (slots data)) as ->.
    { subst options. rewrite fetchDashboardData_cases, Hstats. simpl.
      by destruct (records_endpoint env (attendanceUrl env sel)). }
    split; [apply NoDup_slots|apply elem_of_slots].
  - rewrite onClick_cases, Hstats.
    by destruct (records_endpoint env (attendanceUrl env sel)).
Qed.

(** C10.  A row without a start time or without an end time, absent or
    empty, is passed over: the options are those of the response without
    that row, and every option comes from a row that has both. *)
Theorem slots_skips_incomplete :
  (∀ (pre post : list (AttendanceStat StudentRef)) stat,
     startTime stat = None ∨ startTime stat = Some ""
     ∨ endTime stat = None ∨ endTime stat = Some "" →
     slots (pre ++ stat :: post) = slots (pre ++ post))
  ∧ (∀ data s, s ∈ JsSet.to_array (slots data) →
       ∃ stat a b, stat ∈ data
                   ∧ startTime stat = Some a ∧ endTime stat = Some b
                   ∧ a ≠ "" ∧ b ≠ "" ∧ s = a +:+ "-" +:+ b).
Proof.
  split.
  - intros pre post stat Hstat. rewrite !slots_of_list, !omap_app. simpl.
    by rewrite slot_of_None.
  - intros data s. apply elem_of_slots.
Qed.

(** *** The effect-driven fetch *)

(** C6.  The statistics request goes first; the request for today's
    records follows when the statistics have arrived.  With the filter
    "all" the targets are the bare statistics path and the date path;
    with any other filter, split on the dash into [startTime] and
    [endTime], they carry the two times as query parameters.  The date
    is the part of the ISO timestamp before the "T". *)
Theorem fetchDashboardData_targets env sel w :
  let today := interpolate (split "T" (toISOString env) !! 0%nat) in
  let startTime := interpolate (split "-" sel !! 0%nat) in
  let endTime := interpolate (split "-" sel !! 1%nat) in
  let stats_target :=
    if decide (sel = "all") then "/api/attendance/stats"
    else "/api/attendance/stats?startTime=" +:+ startTime
           +:+ "&endTime=" +:+ endTime in
  let records_target :=
    if decide (sel = "all") then "/api/attendance/date/" +:+ today
    else "/api/attendance/timeslot?date=" +:+ today
           +:+ "&startTime=" +:+ startTime +:+ "&endTime=" +:+ endTime in
  requests (trace (fetchDashboardData env sel w).2)
  = requests (trace w)
    ++ stats_target :: match stats_endpoint env stats_target with
                       | Resolved _ => [records_target]
                       | Rejected => []
                       end.
Proof.
  intros today startTime endTime stats_target records_target.
  assert (statsUrl sel = stats_target) as Hs.
  { unfold statsUrl. subst stats_target. by repeat case_decide. }
  assert (attendanceUrl env sel = records_target) as Hr.
  { unfold attendanceUrl. subst records_target. by repeat case_decide. }
  rewrite fetchDashboardData_cases, Hs, Hr. unfold requests.
  destruct (stats_endpoint env stats_target) as [data|];
    [destruct (records_endpoint env records_target)|];
    simpl; by rewrite omap_app.
Qed.

(** For a filter made of two dash-free times and a timestamp whose date
    has no "T", the parameters are the two times and the date. *)
Lemma targets_of_slot env a b date time :
  toISOString env = date +:+ "T" +:+ time →
  occurs "T" date = false →
  occurs "-" a = false → occurs "-" b = false →
  statsUrl (a +:+ "-" +:+ b)
  = "/api/attendance/stats?startTime=" +:+ a +:+ "&endTime=" +:+ b
  ∧ attendanceUrl env (a +:+ "-" +:+ b)
    = "/api/attendance/timeslot?date=" +:+ date
        +:+ "&startTime=" +:+ a +:+ "&endTime=" +:+ b.
Proof.
  intros Hiso Hdate Ha Hb.
  assert (a +:+ "-" +:+ b ≠ "all") as Hne.
  { intros Heq. apply (f_equal (occurs "-")) in Heq.
    rewrite occurs_app in Heq. simpl in Heq.
    by rewrite orb_true_r in Heq. }
  unfold statsUrl, attendanceUrl.
  rewrite !decide_True, split_slot, Hiso by done.
  change ("T" +:+ time) with (String "T" time).
  by rewrite split_first.
Qed.

(** C4, as the code has it.  When the fetch fails, one error
    notification is emitted and none other, the loading flag ends up
    false, and today's records, the selected filter and the refresh
    counter are untouched.  The statistics and the options are untouched
    when it is the statistics request that was rejected; when it
    resolved and the request for today's records was rejected, they have
    already been replaced from the response. *)
Theorem fetchDashboardData_failure env sel w :
  fetch_fails env sel →
  let w' := (fetchDashboardData env sel w).2 in
  notifications (trace w')
  = notifications (trace w) ++ [ToastError "Failed to load dashboard data"]
  ∧ isLoading (state w') = false
  ∧ recentAttendance (state w') = recentAttendance (state w)
  ∧ selectedTimeSlot (state w') = selectedTimeSlot (state w)
  ∧ refreshKey (state w') = refreshKey (state w)
  ∧ match stats_endpoint env (statsUrl sel) with
    | Rejected =>
        stats (state w') = stats (state w)
        ∧ timeSlots (state w') = timeSlots (state w)
    | Resolved data =>
        stats (state w') = Some data
        ∧ timeSlots (state w') = JsSet.to_array (slots data)
    end.
Proof.
  intros Hfail w'. subst w'. rewrite fetchDashboardData_cases.
  unfold notifications.
  destruct (stats_endpoint env (statsUrl sel)) as [data|] eqn:Hs.
  - destruct Hfail as [Hfail|Hfail]; [congruence|]. rewrite Hfail. simpl.
    by rewrite List.filter_app.
  - simpl. by rewrite List.filter_app.
Qed.

(** *** The timer *)

(** C7.  A tick whose request resolves replaces today's records and
    nothing else of the state; a tick whose request is rejected leaves
    the state as it was and writes to the console.  Neither emits a
    notification. *)
Theorem refreshInterval_frame env sel w :
  let w' := (refreshInterval env sel w).2 in
  notifications (trace w') = notifications (trace w)
  ∧ match records_endpoint env (attendanceUrl env sel) with
    | Resolved records =>
        recentAttendance (state w') = records
        ∧ stats (state w') = stats (state w)
        ∧ timeSlots (state w') = timeSlots (state w)
        ∧ selectedTimeSlot (state w') = selectedTimeSlot (state w)
        ∧ isLoading (state w') = isLoading (state w)
        ∧ refreshKey (state w') = refreshKey (state w)
        ∧ trace w' = trace w ++ [Get (attendanceUrl env sel);
                                 ConsoleLog "Dashboard data refreshed"]
    | Rejected =>
        state w' = state w
        ∧ trace w' = trace w ++ [Get (attendanceUrl env sel);
                                 ConsoleError
                                   "Error refreshing attendance data:"]
    end.
Proof.
  intros w'. subst w'. rewrite refreshInterval_cases. unfold notifications.
  destruct (records_endpoint env (attendanceUrl env sel)) as [records|];
    simpl; rewrite List.filter_app; simpl; by rewrite (right_id_L [] (++)).
Qed.

(** *** The refresh button *)

(** C8.  A click sends both requests, whatever becomes of the first.
    When both resolve, the statistics and today's records are replaced
    and a success notification is emitted; when either is rejected, an
    error notification is emitted and the two arrays keep their values.
    In every case the loading flag ends up false. *)
Theorem onClick_settles env sel w :
  let w' := (onClick env sel w).2 in
  isLoading (state w') = false
  ∧ ∃ outcome,
      trace w' = trace w ++ [Get (statsUrl sel); Get (attendanceUrl env sel)]
                 ++ outcome
      ∧ match stats_endpoint env (statsUrl sel),
              records_endpoint env (attendanceUrl env sel) with
        | Resolved data, Resolved records =>
            stats (state w') = Some data
            ∧ recentAttendance (state w') = records
            ∧ outcome = [ToastSuccess "Dashboard refreshed"]
        | _, _ =>
            stats (state w') = stats (state w)
            ∧ recentAttendance (state w') = recentAttendance (state w)
            ∧ outcome = [ConsoleError "Error refreshing data:";
                         ToastError "Failed to refresh data"]
        end.
Proof.
  intros w'. subst w'. rewrite onClick_cases.
  destruct (stats_endpoint env (statsUrl sel)) as [data|],
           (records_endpoint env (attendanceUrl env sel)) as [records|];
    simpl; (split; [done|]); eexists; split; try done; done.
Qed.

(** The click itself leaves the options alone; they are recomputed by the
    effect, which the bump of [refreshKey] runs again. *)
Lemma onClick_keeps_timeSlots env sel w :
  timeSlots (state (onClick env sel w).2) = timeSlots (state w)
  ∧ refreshKey (state (onClick env sel w).2) = (refreshKey (state w) + 1)%nat.
Proof.
  rewrite onClick_cases.
  by destruct (stats_endpoint env (statsUrl sel)),
              (records_endpoint env (attendanceUrl env sel)).
Qed.

(** *** Rendering *)

(** C9, as the code has it.  The admin link is rendered exactly when the
    view is not loading and a user is supplied whose role is "admin". *)
Theorem adminLink_iff (user : option User) (st : State StudentRef) :
  adminLinkRendered (Dashboard user st) = true
  ↔ isLoading st = false ∧ ∃ u, user = Some u ∧ role u = "admin".
Proof.
  unfold Dashboard. destruct (isLoading st); simpl.
  - split; [done|]. by intros [? _].
  - destruct user as [u|].
    + rewrite bool_decide_eq_true. split.
      * intros Hrole. split; [done|]. by exists u.
      * by intros (_ & u' & [= <-] & Hrole).
    + split; [done|]. by intros (_ & u & ? & _).
Qed.

End flows.

(** ** The flows on the sample data *)

(** Mount with everything arriving: the options are the two distinct
    slots of the response, in the order met. *)
Example fetch_online :
  (fetchDashboardData Sample.online "all" Sample.mounted).2
  = {| state :=
         {| stats := Some Sample.slotted;
            recentAttendance := [Sample.record "r1"; Sample.record "r2"];
            isLoading := false; refreshKey := 0;
            timeSlots := ["09:00-10:00"; "10:00-11:00"];
            selectedTimeSlot := "all" |};
       trace := [Get "/api/attendance/stats";
                 Get "/api/attendance/date/2025-03-04"] |}.
Proof. reflexivity. Qed.

(** A filter without a dash has no second piece. *)
Example fetch_dashless :
  requests (trace (fetchDashboardData Sample.offline "morning"
                     Sample.mounted).2)
  = ["/api/attendance/stats?startTime=morning&endTime=undefined"].
Proof. reflexivity. Qed.

(** A click while the statistics endpoint is down still asks for today's
    records. *)
Example click_offline :
  trace (onClick Sample.offline "09:00-10:00" Sample.mounted).2
  = [Get "/api/attendance/stats?startTime=09:00&endTime=10:00";
     Get "/api/attendance/timeslot?date=2025-03-04&startTime=09:00&endTime=10:00";
     ConsoleError "Error refreshing data:";
     ToastError "Failed to refresh data"].
Proof. reflexivity. Qed.

(** C4 on the sample: the statistics arrive, today's records do not. *)
Lemma fetchDashboardData_failure_witness :
  fetch_fails Sample.records_down "all"
  ∧ let w' := (fetchDashboardData Sample.records_down "all"
                 Sample.mounted).2 in
    notifications (trace w')
    = notifications (trace Sample.mounted)
      ++ [ToastError "Failed to load dashboard data"]
    ∧ isLoading (state w') = false
    ∧ recentAttendance (state w') = recentAttendance (state Sample.mounted)
    ∧ selectedTimeSlot (state w') = selectedTimeSlot (state Sample.mounted)
    ∧ refreshKey (state w') = refreshKey (state Sample.mounted)
    ∧ match stats_endpoint Sample.records_down (statsUrl "all") with
      | Rejected =>
          stats (state w') = stats (state Sample.mounted)
          ∧ timeSlots (state w') = timeSlots (state Sample.mounted)
      | Resolved data =>
          stats (state w') = Some data
          ∧ timeSlots (state w') = JsSet.to_array (slots data)
      end.
Proof.
  split; [right; reflexivity|].
  apply (fetchDashboardData_failure Sample.records_down "all" Sample.mounted).
  right; reflexivity.
Defined.

(** C4 as stated fails: the statistics arrive, today's records do not,
    and the statistics and the options have changed all the same. *)
Lemma fetchDashboardData_atomic_counterexample :
  ¬ (fetch_fails Sample.records_down "all" →
     let w' := (fetchDashboardData Sample.records_down "all"
                  Sample.mounted).2 in
     notifications (trace w')
     = notifications (trace Sample.mounted)
       ++ [ToastError "Failed to load dashboard data"]
     ∧ isLoading (state w') = false
     ∧ stats (state w') = stats (state Sample.mounted)
     ∧ recentAttendance (state w') = recentAttendance (state Sample.mounted)
     ∧ timeSlots (state w') = timeSlots (state Sample.mounted)).
Proof.
  intros Hclaim.
  destruct Hclaim as (_ & _ & Hstats & _); [right; reflexivity|].
  discriminate Hstats.
Qed.

(** C5 on the sample response. *)
Lemma timeSlots_after_stats_witness :
  stats_endpoint Sample.online (statsUrl "all") = Resolved Sample.slotted
  ∧ (let options :=
       timeSlots (state (fetchDashboardData Sample.online "all"
                           Sample.mounted).2) in
     NoDup options
     ∧ ∀ s, s ∈ options
            ↔ ∃ stat a b, stat ∈ Sample.slotted
                          ∧ startTime stat = Some a ∧ endTime stat = Some b
                          ∧ a ≠ "" ∧ b ≠ "" ∧ s = a +:+ "-" +:+ b)
  ∧ timeSlots (state (onClick Sample.online "all" Sample.mounted).2)
    = timeSlots (state Sample.mounted).
Proof.
  split; [reflexivity|].
  apply (timeSlots_after_stats Sample.online "all" Sample.mounted
           Sample.slotted).
  reflexivity.
Defined.

(** C5 as stated fails: the refresh click fetches the statistics with
    success and stores them, and the options stay as they were, here
    empty, though the response has rows with both times. *)
Lemma timeSlots_counterexample :
  let w' := (onClick Sample.online "all" Sample.mounted).2 in
  stats_endpoint Sample.online (statsUrl "all") = Resolved Sample.slotted
  ∧ stats (state w') = Some Sample.slotted
  ∧ ¬ (∀ s, s ∈ timeSlots (state w')
            ↔ ∃ stat a b, stat ∈ Sample.slotted
                          ∧ startTime stat = Some a ∧ endTime stat = Some b
                          ∧ a ≠ "" ∧ b ≠ "" ∧ s = a +:+ "-" +:+ b).
Proof.
  split; [reflexivity|]. split; [reflexivity|]. intros Hclaim.
  assert ("09:00-10:00"
          ∈ timeSlots (state (onClick Sample.online "all"
                                Sample.mounted).2)) as Hin.
  { apply Hclaim.
    exists (Sample.stat "A" 50 (Some "09:00") (Some "10:00")),
           "09:00", "10:00".
    split_and!; try done. apply list_elem_of_here. }
  by apply elem_of_nil in Hin.
Qed.

(** The same in the life of the component: mounted while the backend is
    down, then a click whose own requests are answered and whose
    re-run of the effect is not; the statistics are those of the click
    and the select offers no slot. *)
Example stale_options_reachable :
  let r := run [(Sample.online, Sample.offline, Click)]
               (mount Sample.offline) in
  stats (state (world r)) = Some Sample.slotted
  ∧ timeSlots (state (world r)) = []
  ∧ JsSet.to_array (slots Sample.slotted) = ["09:00-10:00"; "10:00-11:00"].
Proof. done. Qed.

(** C10 on the sample response: the row without a start time. *)
Lemma slots_skips_incomplete_witness :
  slots ([Sample.stat "A" 50 (Some "09:00") (Some "10:00")]
         ++ Sample.stat "B" 60 None (Some "11:00")
         :: [Sample.stat "C" 70 (Some "09:00") (Some "10:00")])
  = slots ([Sample.stat "A" 50 (Some "09:00") (Some "10:00")]
           ++ [Sample.stat "C" 70 (Some "09:00") (Some "10:00")]).
Proof.
  apply (proj1 slots_skips_incomplete). left; reflexivity.
Defined.

(** C9 as stated fails: while the view is loading, an admin gets no
    link. *)
Lemma adminLink_counterexample :
  ¬ (adminLinkRendered
       (Dashboard (StudentRef:=string) (Some Sample.admin) initialState)
     = true
     ↔ ∃ u, Some Sample.admin = Some u ∧ role u = "admin").
Proof.
  intros [_ Hclaim]. discriminate Hclaim. by exists Sample.admin.
Qed.

(** The link on a loaded view: there for an admin, not for a teacher,
    not without a user. *)
Example adminLink_loaded :
  let st := (fetchDashboardData Sample.online "all" Sample.mounted).2 in
  adminLinkRendered (Dashboard (Some Sample.admin) (state st)) = true
  ∧ adminLinkRendered (Dashboard (Some Sample.teacher) (state st)) = false
  ∧ adminLinkRendered (Dashboard None (state st)) = false.
Proof. done. Qed.

(** ** More on the summary reducer *)

Section calculateSummary_more.
Context {StudentRef : Type} `{Countable StudentRef}.
Implicit Types (stats : list (AttendanceStat StudentRef))
               (records : list AttendanceRecord).

(** The number of students is at least one and at most the number of
    rows, which it equals exactly when no student has two rows; the
    number of rows below the threshold is at most the number of rows. *)
Theorem totalStudents_bounds stats records :
  stats ≠ [] →
  let summary := calculateSummary (Some stats) records in
  (1 ≤ totalStudents summary ≤ length stats)%nat
  ∧ (totalStudents summary = length stats ↔ NoDup (student <$> stats))
  ∧ (belowThreshold summary ≤ length stats)%nat.
Proof.
  intros Hne summary. subst summary.
  rewrite calculateSummary_unfold by done.
  cbn [totalStudents belowThreshold]. unfold JsSet.size.
  set (l := student <$> stats).
  assert (length l = length stats) as <- by apply length_fmap.
  assert (JsSet.of_list l ⊆+ l) as Hsub.
  { apply NoDup_submseteq; [apply NoDup_of_list|].
    intros x. by rewrite elem_of_of_list. }
  split_and!.
  - destruct stats as [|stat stats]; [done|].
    assert (student stat ∈ JsSet.of_list l) as Hin.
    { apply elem_of_of_list. subst l. simpl. left. }
    destruct (JsSet.of_list l); [by apply elem_of_nil in Hin|simpl; lia].
  - by apply submseteq_length.
  - split.
    + intros Hlen. rewrite <-(submseteq_length_Permutation _ _ Hsub) by lia.
      apply NoDup_of_list.
    + intros Hnd. apply Permutation_length, NoDup_Permutation;
        [apply NoDup_of_list|done|].
      intros x. apply elem_of_of_list.
  - subst l. rewrite length_fmap. apply length_filter.
Qed.

(** The three counts of the summary do not depend on the order of the
    rows of the statistics, and depend on today's records through their
    number only.  (The average does depend on the order: see
    [averageAttendance_order].) *)
Theorem summary_counts_Permutation stats stats' records records' :
  stats ≡ₚ stats' → length records = length records' →
  let summary := calculateSummary (Some stats) records in
  let summary' := calculateSummary (Some stats') records' in
  totalStudents summary = totalStudents summary'
  ∧ belowThreshold summary = belowThreshold summary'
  ∧ presentToday summary = presentToday summary'.
Proof.
  intros Hperm Hlen. destruct (decide (stats = [])) as [->|Hne].
  { apply Permutation.Permutation_nil in Hperm as ->. done. }
  assert (stats' ≠ []) as Hne'.
  { intros ->. symmetry in Hperm.
    by apply Permutation.Permutation_nil in Hperm. }
  cbv zeta. rewrite !calculateSummary_unfold by done.
  cbn [totalStudents belowThreshold presentToday]. split_and!.
  - rewrite !size_of_list. unfold distinct_count.
    f_equal. apply list_to_set_perm_L. by rewrite Hperm.
  - by rewrite Hperm.
  - done.
Qed.

End calculateSummary_more.

(** The average depends on the order of the rows: the doubles nearest
    to 0.1, 0.2 and 0.3 average to one double when added in this order
    and to another when added from the last to the first. *)
Example averageAttendance_order :
  Scenario.rising ≡ₚ Scenario.falling
  ∧ averageAttendance (calculateSummary (Some Scenario.rising) [])
    = 0x1.999999999999bp-3%float
  ∧ averageAttendance (calculateSummary (Some Scenario.falling) [])
    = 0x1.9999999999999p-3%float.
Proof.
  split; [|by split].
  unfold Scenario.rising, Scenario.falling.
  etrans; [apply perm_swap|]. etrans; [apply perm_skip, perm_swap|].
  apply perm_swap.
Qed.

(** ** More on [Set], [split] and [replace] *)

Section JsSet_order.
Context {A : Type} `{EqDecision A}.
Implicit Types (x y : A) (s : JsSet.t A) (l : list A).

(** Adding the elements of [l] one by one to [s] appends to [s] the new
    ones among them, each at its first occurrence. *)
Lemma add_all_first_occurrences l s :
  fold_left (λ s x, JsSet.add x s) l s
  = s ++ filter (λ y, y ∉ s) (first_occurrences l).
Proof.
  revert s. induction l as [|x l IH]; intros s; simpl.
  - by rewrite filter_nil, (right_id_L [] (++)).
  - rewrite IH, filter_cons, list_filter_filter. unfold JsSet.add.
    destruct (decide (x ∈ s)) as [Hin|Hin].
    + rewrite decide_False by (by intros ?). f_equal.
      apply list_filter_iff. intros y. split; [|by intros []].
      intros Hy. split; [done|]. by intros ->.
    + rewrite decide_True by done. rewrite <-(assoc_L (++)). simpl.
      do 2 f_equal. apply list_filter_iff. intros y.
      rewrite not_elem_of_app, list_elem_of_singleton. tauto.
Qed.

Lemma of_list_first_occurrences l : JsSet.of_list l = first_occurrences l.
Proof.
  unfold JsSet.of_list, JsSet.empty. rewrite add_all_first_occurrences.
  simpl. induction (first_occurrences l) as [|y k IH]; [done|].
  rewrite filter_cons_True by apply not_elem_of_nil. by rewrite IH.
Qed.
End JsSet_order.

Section split_more.
Implicit Types (c : ascii) (a b : string).

(** No piece holds the separator. *)
Lemma split_pieces c a : Forall (λ piece, occurs c piece = false) (split c a).
Proof.
  induction a as [|c' a IH]; simpl.
  - by repeat constructor.
  - destruct (decide (c' = c)) as [->|Hc]; [by constructor|].
    destruct (split c a) as [|piece pieces]; simpl.
    + repeat constructor. simpl. by rewrite bool_decide_eq_false_2.
    + inversion_clear IH as [|?? Hpiece Hpieces]. constructor; [|done].
      simpl. by rewrite bool_decide_eq_false_2.
Qed.

(** What a destructured piece of a split prints as holds no separator
    either, ["undefined"] included, unless the separator is one of its
    letters. *)
Lemma interpolate_piece c a (i : nat) :
  occurs c "undefined" = false →
  occurs c (interpolate (split c a !! i)) = false.
Proof.
  intros Hundefined. destruct (split c a !! i) as [piece|] eqn:Hi; [|done].
  simpl. by eapply (Forall_lookup_1 _ _ _ _ (split_pieces c a)).
Qed.

(** The first occurrence of the pattern is replaced. *)
Lemma replace_first c by_ a b :
  occurs c a = false → replace c by_ (a +:+ String c b) = a +:+ by_ +:+ b.
Proof.
  induction a as [|c' a IH]; simpl.
  - intros _. by rewrite decide_True.
  - intros [Hc Ha]%orb_false_elim. apply bool_decide_eq_false in Hc.
    rewrite decide_False by done. by rewrite IH.
Qed.

(** Without the pattern nothing is replaced. *)
Lemma replace_absent c by_ a : occurs c a = false → replace c by_ a = a.
Proof.
  induction a as [|c' a IH]; simpl; [done|].
  intros [Hc Ha]%orb_false_elim. apply bool_decide_eq_false in Hc.
  rewrite decide_False by done. by rewrite IH.
Qed.
End split_more.

(** ** More on the options, the targets and the flows *)

Section flows_more.
Context {StudentRef : Type} `{Countable StudentRef}.
Implicit Types (env : Env StudentRef) (w : World StudentRef)
               (sel : string) (data : list (AttendanceStat StudentRef)).

(** Every option holds a dash. *)
Lemma slots_dash data s : s ∈ slots data → occurs "-" s = true.
Proof.
  intros (stat & a & b & _ & _ & _ & _ & _ & ->)%elem_of_slots.
  rewrite occurs_app. simpl. by rewrite orb_true_r.
Qed.

Lemma dash_not_all s : occurs "-" s = true → s ≠ "all".
Proof. by intros Hs ->. Qed.

(** The options are listed in the order in which the response first
    shows them. *)
Theorem slots_in_order data :
  JsSet.to_array (slots data) = first_occurrences (omap slot_of data).
Proof.
  unfold JsSet.to_array. rewrite slots_of_list.
  apply of_list_first_occurrences.
Qed.

(** Choosing the option a row gave rise to asks for that row's times:
    for a row whose two times are non-empty and dash-free, the option is
    among those computed, and as the selected filter it is split back
    into the two times, which the two targets carry. *)
Theorem option_round_trip env data stat a b date time :
  stat ∈ data → startTime stat = Some a → endTime stat = Some b →
  a ≠ "" → b ≠ "" →
  occurs "-" a = false → occurs "-" b = false →
  toISOString env = date +:+ "T" +:+ time → occurs "T" date = false →
  a +:+ "-" +:+ b ∈ JsSet.to_array (slots data)
  ∧ statsUrl (a +:+ "-" +:+ b)
    = "/api/attendance/stats?startTime=" +:+ a +:+ "&endTime=" +:+ b
  ∧ attendanceUrl env (a +:+ "-" +:+ b)
    = "/api/attendance/timeslot?date=" +:+ date
        +:+ "&startTime=" +:+ a +:+ "&endTime=" +:+ b.
Proof.
  intros Hin Hstart Hend Ha Hb Hdasha Hdashb Hiso Hdate. split.
  - apply elem_of_slots. by exists stat, a, b.
  - by apply (targets_of_slot env a b date time).
Qed.

(** Whatever the filter, the two times sent hold no dash. *)
Theorem targets_dash_free env sel :
  sel ≠ "all" →
  ∃ a b, occurs "-" a = false ∧ occurs "-" b = false
         ∧ statsUrl sel
           = "/api/attendance/stats?startTime=" +:+ a +:+ "&endTime=" +:+ b
         ∧ attendanceUrl env sel
           = "/api/attendance/timeslot?date="
               +:+ interpolate (split "T" (toISOString env) !! 0%nat)
               +:+ "&startTime=" +:+ a +:+ "&endTime=" +:+ b.
Proof.
  intros Hne.
  exists (interpolate (split "-" sel !! 0%nat)),
         (interpolate (split "-" sel !! 1%nat)).
  split_and!; try by apply interpolate_piece.
  - unfold statsUrl. by rewrite decide_True.
  - unfold attendanceUrl. by rewrite decide_True.
Qed.

(** What follows a second dash is ignored: a filter with more than two
    pieces has the targets of its first two. *)
Theorem targets_ignore_tail env a b rest :
  occurs "-" a = false → occurs "-" b = false →
  statsUrl (a +:+ "-" +:+ b +:+ "-" +:+ rest) = statsUrl (a +:+ "-" +:+ b)
  ∧ attendanceUrl env (a +:+ "-" +:+ b +:+ "-" +:+ rest)
    = attendanceUrl env (a +:+ "-" +:+ b).
Proof.
  intros Ha Hb.
  assert (∀ tail, a +:+ "-" +:+ tail ≠ "all") as Hne.
  { intros tail. apply dash_not_all. rewrite occurs_app. simpl.
    by rewrite orb_true_r. }
  unfold statsUrl, attendanceUrl. rewrite !decide_True by apply Hne.
  rewrite (split_slot a b) by done.
  change ("-" +:+ b +:+ "-" +:+ rest)
    with (String "-" (b +:+ String "-" rest)).
  by rewrite !split_first.
Qed.

(** A filter without a dash has no second piece: the end time sent is
    the text "undefined". *)
Theorem targets_dashless env sel :
  sel ≠ "all" → occurs "-" sel = false →
  statsUrl sel
  = "/api/attendance/stats?startTime=" +:+ sel +:+ "&endTime=undefined"
  ∧ attendanceUrl env sel
    = "/api/attendance/timeslot?date="
        +:+ interpolate (split "T" (toISOString env) !! 0%nat)
        +:+ "&startTime=" +:+ sel +:+ "&endTime=undefined".
Proof.
  intros Hne Hsel. unfold statsUrl, attendanceUrl.
  by rewrite !decide_True, split_absent by done.
Qed.

(** No flow ends in a rejection: whatever the requests do, the failure
    is caught. *)
Theorem flows_never_throw env sel w :
  (fetchDashboardData env sel w).1 = Return ()
  ∧ (refreshInterval env sel w).1 = Return ()
  ∧ (onClick env sel w).1 = Return ().
Proof.
  by rewrite fetchDashboardData_cases, refreshInterval_cases, onClick_cases.
Qed.

(** Fetching again, or ticking again, with the same answers leaves the
    state as the first time left it. *)
Theorem refetch_idempotent env sel w :
  state (fetchDashboardData env sel (fetchDashboardData env sel w).2).2
  = state (fetchDashboardData env sel w).2
  ∧ state (refreshInterval env sel (refreshInterval env sel w).2).2
    = state (refreshInterval env sel w).2.
Proof.
  rewrite !fetchDashboardData_cases, !refreshInterval_cases.
  by destruct (stats_endpoint env (statsUrl sel)),
              (records_endpoint env (attendanceUrl env sel)).
Qed.

(** The values of the options: the sentinel, then the time slots. *)
Lemma timeSlotOptions_values (st : State StudentRef) :
  (timeSlotOptions st).*1 = "all" :: timeSlots st.
Proof.
  unfold timeSlotOptions. simpl. f_equal.
  rewrite <-list_fmap_compose. apply list_fmap_id.
Qed.

(** After a fetch under a filter that the response does not show, an
    empty response for one, the select offers no option for the filter
    still selected. *)
Theorem selected_filter_not_offered env sel w data :
  stats_endpoint env (statsUrl sel) = Resolved data →
  sel ≠ "all" → sel ∉ JsSet.to_array (slots data) →
  selectedTimeSlot (state w) = sel →
  let st' := state (fetchDashboardData env sel w).2 in
  selectedTimeSlot st' = sel ∧ sel ∉ (timeSlotOptions st').*1.
Proof.
  intros Hstats Hne Hsel Hw st'. subst st'.
  rewrite timeSlotOptions_values, fetchDashboardData_cases, Hstats.
  destruct (records_endpoint env (attendanceUrl env sel)); simpl;
    (split; [done|]); by apply not_elem_of_cons.
Qed.

(** The text of the option a row gave rise to: the two times with
    " - " between them, when the start time holds no dash. *)
Theorem option_label env sel w data stat a b :
  stats_endpoint env (statsUrl sel) = Resolved data →
  stat ∈ data → startTime stat = Some a → endTime stat = Some b →
  a ≠ "" → b ≠ "" → occurs "-" a = false →
  (a +:+ "-" +:+ b, a +:+ " - " +:+ b)
  ∈ timeSlotOptions (state (fetchDashboardData env sel w).2).
Proof.
  intros Hstats Hin Hstart Hend Ha Hb Hdash.
  assert (timeSlots (state (fetchDashboardData env sel w).2)
          = JsSet.to_array (slots data)) as Hslots.
  { rewrite fetchDashboardData_cases, Hstats.
    by destruct (records_endpoint env (attendanceUrl env sel)). }
  unfold timeSlotOptions. rewrite Hslots. right.
  apply list_elem_of_fmap. exists (a +:+ "-" +:+ b). split.
  - f_equal. change ("-" +:+ b) with (String "-" b).
    by rewrite replace_first.
  - apply elem_of_slots. by exists stat, a, b.
Qed.

(** The card and the table can disagree: when the statistics never
    arrived and a tick brings today's records, the view shows the
    records in the table and 0 on the "Present Today" card. *)
Theorem presentToday_table_disagree env env' sel user w records :
  stats (state w) = None →
  stats_endpoint env (statsUrl sel) = Rejected →
  records_endpoint env' (attendanceUrl env' sel) = Resolved records →
  let w' := (refreshInterval env' sel (fetchDashboardData env sel w).2).2 in
  ∃ summary adminLink,
    Dashboard user (state w') = Content summary records adminLink
    ∧ presentToday summary = 0%nat.
Proof.
  intros Hnone Hstats Hrecords w'. subst w'.
  rewrite refreshInterval_cases, Hrecords, fetchDashboardData_cases, Hstats.
  unfold Dashboard. simpl. rewrite Hnone. by eexists _, _.
Qed.

End flows_more.

(** ** The effect and its timer *)

Section lifecycle_facts.
Context {StudentRef : Type} `{Countable StudentRef}.
Implicit Types (env : Env StudentRef) (w : World StudentRef)
               (r : Runtime StudentRef) (sel : string)
               (steps : list (Env StudentRef * Env StudentRef * Action)).

(** *** What the flows leave alone *)

Lemma fetchDashboardData_frame env sel w :
  let st' := state (fetchDashboardData env sel w).2 in
  selectedTimeSlot st' = selectedTimeSlot (state w)
  ∧ refreshKey st' = refreshKey (state w)
  ∧ (NoDup ("all" :: timeSlots (state w)) → NoDup ("all" :: timeSlots st')).
Proof.
  simpl. rewrite fetchDashboardData_cases.
  assert (∀ data : list (AttendanceStat StudentRef),
            NoDup ("all" :: JsSet.to_array (slots data))) as Hslots.
  { intros data. apply NoDup_cons. split; [|apply NoDup_slots].
    intros Hin%slots_dash. done. }
  destruct (stats_endpoint env (statsUrl sel)) as [data|];
    [destruct (records_endpoint env (attendanceUrl env sel))|];
    simpl; split_and!; auto.
Qed.

Lemma refreshInterval_keeps env sel w :
  let st' := state (refreshInterval env sel w).2 in
  selectedTimeSlot st' = selectedTimeSlot (state w)
  ∧ refreshKey st' = refreshKey (state w)
  ∧ timeSlots st' = timeSlots (state w).
Proof.
  simpl. rewrite refreshInterval_cases.
  by destruct (records_endpoint env (attendanceUrl env sel)).
Qed.

Lemma onClick_keeps env sel w :
  let st' := state (onClick env sel w).2 in
  selectedTimeSlot st' = selectedTimeSlot (state w)
  ∧ refreshKey st' = (refreshKey (state w) + 1)%nat
  ∧ timeSlots st' = timeSlots (state w).
Proof.
  simpl. rewrite onClick_cases.
  by destruct (stats_endpoint env (statsUrl sel)),
              (records_endpoint env (attendanceUrl env sel)).
Qed.

(** *** One run of the effect after the cleanup *)

Lemma clearInterval_own id sel : clearInterval id [(id, sel)] = [].
Proof. unfold clearInterval. by rewrite filter_cons_False by (by intros ?). Qed.

Lemma useEffect_restart env r id sel0 :
  intervals r = [(id, sel0)] → cleanup r = Some id →
  let sel := selectedTimeSlot (state (world r)) in
  let r' := useEffect env (run_cleanup r) in
  world r' = (fetchDashboardData env sel (world r)).2
  ∧ mounted r' = true
  ∧ intervals r' = [(next_interval r, sel)]
  ∧ cleanup r' = Some (next_interval r)
  ∧ deps r' = (refreshKey (state (world r')), selectedTimeSlot (state (world r'))).
Proof.
  intros Hint Hclean. unfold useEffect, run_cleanup. rewrite Hclean. simpl.
  rewrite Hint, clearInterval_own.
  destruct (fetchDashboardData_frame env
              (selectedTimeSlot (state (world r))) (world r))
    as (-> & -> & _).
  done.
Qed.

Lemma run_cons env env' a steps r :
  run ((env, env', a) :: steps) r = run steps (step env env' a r).
Proof. done. Qed.

Lemma run_app steps steps' r : run (steps ++ steps') r = run steps' (run steps r).
Proof. apply fold_left_app. Qed.

(** *** The invariant *)

Lemma mount_invariant env : effect_invariant (mount env).
Proof.
  unfold effect_invariant, mount, useEffect. simpl.
  destruct (fetchDashboardData_frame env "all"
              {| state := initialState; trace := [] |})
    as (Hsel & Hkey & Hopts).
  simpl in *. split.
  - apply Hopts. apply NoDup_singleton.
  - exists 0%nat. by rewrite Hsel, Hkey.
Qed.

Lemma useEffect_invariant env r id sel0 :
  NoDup ("all" :: timeSlots (state (world r))) →
  intervals r = [(id, sel0)] → cleanup r = Some id →
  effect_invariant (useEffect env (run_cleanup r)).
Proof.
  intros Hopts Hint Hclean.
  destruct (useEffect_restart env r id sel0 Hint Hclean)
    as (Hw & Hm & Hint' & Hclean' & Hdeps).
  destruct (fetchDashboardData_frame env
              (selectedTimeSlot (state (world r))) (world r))
    as (Hsel & _ & Hopts').
  unfold effect_invariant. rewrite Hm, Hint', Hclean', Hdeps, Hw.
  split; [by apply Hopts'|].
  exists (next_interval r). by rewrite Hsel.
Qed.

Lemma commit_same env r :
  deps r = (refreshKey (state (world r)), selectedTimeSlot (state (world r))) →
  commit env r = r.
Proof. intros Hdeps. unfold commit. by rewrite decide_True. Qed.

Lemma commit_changed env r :
  deps r ≠ (refreshKey (state (world r)), selectedTimeSlot (state (world r))) →
  commit env r = useEffect env (run_cleanup r).
Proof. intros Hdeps. unfold commit. by rewrite decide_False. Qed.

Lemma step_invariant env env' a r :
  effect_invariant r → effect_invariant (step env env' a r).
Proof.
  intros [Hopts Hlive]. destruct a as [value| |id|]; cbn [step].
  - (* Select *)
    destruct (mounted r) eqn:Hm; [|by split; [|rewrite Hm]].
    destruct Hlive as (id & Hint & Hclean & Hdeps).
    set (r1 := set_world (onChange value (world r)).2 r).
    destruct (decide (value = selectedTimeSlot (state (world r))))
      as [Hsame|Hdiff].
    + rewrite commit_same by (by subst r1; simpl; rewrite Hdeps, Hsame).
      split; [done|]. subst r1. simpl. rewrite Hm. exists id.
      by rewrite Hsame.
    + rewrite commit_changed
        by (subst r1; simpl; rewrite Hdeps; by intros [= ?]).
      by apply (useEffect_invariant env' r1 id
                  (selectedTimeSlot (state (world r)))).
  - (* Click *)
    destruct (mounted r) eqn:Hm; [|by split; [|rewrite Hm]].
    destruct Hlive as (id & Hint & Hclean & Hdeps).
    set (sel := selectedTimeSlot (state (world r))) in *.
    destruct (onClick_keeps env sel (world r)) as (Hsel & Hkey & Hslots).
    set (r1 := set_world (onClick env sel (world r)).2 r).
    rewrite commit_changed
      by (subst r1; cbn [set_world world deps]; rewrite Hdeps, Hkey;
          intros [= ?]; lia).
    apply (useEffect_invariant env' r1 id sel); [|done..].
    subst r1. cbn [set_world world]. by rewrite Hslots.
  - (* Tick *)
    destruct (interval_callback id (intervals r)) as [sel|];
      [|by split].
    destruct (refreshInterval_keeps env sel (world r))
      as (Hsel & Hkey & Hslots).
    split; cbn [set_world world mounted intervals cleanup deps];
      [by rewrite Hslots|].
    destruct (mounted r); [|done].
    destruct Hlive as (id' & Hint & Hclean & Hdeps).
    exists id'. by rewrite Hsel, Hkey.
  - (* Unmount *)
    destruct (mounted r) eqn:Hm; [|by split; [|rewrite Hm]].
    destruct Hlive as (id & Hint & Hclean & Hdeps).
    unfold run_cleanup. rewrite Hclean. split; simpl; [done|].
    rewrite Hint. apply clearInterval_own.
Qed.

Lemma run_invariant steps r : effect_invariant r → effect_invariant (run steps r).
Proof.
  revert r. induction steps as [|[[env env'] a] steps IH]; intros r Hr; [done|].
  rewrite run_cons. by apply IH, step_invariant.
Qed.

(** *** What the invariant gives *)

(** While the component is mounted exactly one interval is live, and its
    callback captured the filter now selected; once it is unmounted none
    is. *)
Theorem one_interval env steps :
  let r := run steps (mount env) in
  if mounted r then
    ∃ id, intervals r = [(id, selectedTimeSlot (state (world r)))]
  else intervals r = [].
Proof.
  intros r. destruct (run_invariant steps _ (mount_invariant env))
    as [_ Hlive].
  fold r in Hlive. destruct (mounted r); [|done].
  destruct Hlive as (id & Hint & _). by exists id.
Qed.

(** The select never offers the same value twice, the sentinel "all"
    included. *)
Theorem options_distinct env steps :
  NoDup (timeSlotOptions (state (world (run steps (mount env))))).*1.
Proof.
  rewrite timeSlotOptions_values.
  apply (run_invariant steps _ (mount_invariant env)).
Qed.

Lemma unmounted_stuck env env' a r :
  effect_invariant r → mounted r = false → step env env' a r = r.
Proof.
  intros [_ Hlive] Hm. rewrite Hm in Hlive.
  destruct a; simpl; rewrite ?Hm, ?Hlive; done.
Qed.

Lemma run_unmounted steps r :
  effect_invariant r → mounted r = false → run steps r = r.
Proof.
  intros Hr Hm. induction steps as [|[[env env'] a] steps IH]; [done|].
  by rewrite run_cons, unmounted_stuck.
Qed.

Lemma unmount_unmounts env env' r : mounted (step env env' Unmount r) = false.
Proof. simpl. by destruct (mounted r) eqn:Hm. Qed.

(** Nothing happens after the unmount: no later tick, click or selection
    sends a request or changes anything. *)
Theorem unmount_final env steps e e' steps' :
  run (steps ++ (e, e', Unmount) :: steps') (mount env)
  = run (steps ++ [(e, e', Unmount)]) (mount env).
Proof.
  rewrite !run_app, !run_cons. apply run_unmounted.
  - apply step_invariant, run_invariant, mount_invariant.
  - apply unmount_unmounts.
Qed.

(** What one happening does to the two dependencies. *)
Lemma step_keys env env' a r :
  effect_invariant r → mounted r = true →
  let st := state (world r) in
  let r' := step env env' a r in
  let st' := state (world r') in
  match a with
  | Select value =>
      selectedTimeSlot st' = value ∧ refreshKey st' = refreshKey st
      ∧ mounted r' = true
  | Click =>
      selectedTimeSlot st' = selectedTimeSlot st
      ∧ refreshKey st' = S (refreshKey st) ∧ mounted r' = true
  | Tick _ =>
      selectedTimeSlot st' = selectedTimeSlot st
      ∧ refreshKey st' = refreshKey st ∧ mounted r' = true
  | Unmount =>
      selectedTimeSlot st' = selectedTimeSlot st
      ∧ refreshKey st' = refreshKey st ∧ mounted r' = false
  end.
Proof.
  intros [Hopts Hlive] Hm. rewrite Hm in Hlive.
  destruct Hlive as (id & Hint & Hclean & Hdeps).
  destruct a as [value| |id'|]; cbn [step]; rewrite ?Hm; cbn zeta.
  - set (r1 := set_world (onChange value (world r)).2 r).
    destruct (decide (value = selectedTimeSlot (state (world r))))
      as [Hsame|Hdiff].
    + by rewrite commit_same by (by subst r1; simpl; rewrite Hdeps, Hsame).
    + rewrite commit_changed
        by (subst r1; simpl; rewrite Hdeps; by intros [= ?]).
      destruct (useEffect_restart env' r1 id _ Hint Hclean)
        as (-> & -> & _).
      destruct (fetchDashboardData_frame env'
                  (selectedTimeSlot (state (world r1))) (world r1))
        as (-> & -> & _).
      done.
  - set (sel := selectedTimeSlot (state (world r))) in *.
    destruct (onClick_keeps env sel (world r)) as (Hsel & Hkey & _).
    set (r1 := set_world (onClick env sel (world r)).2 r).
    rewrite commit_changed
      by (subst r1; cbn [set_world world deps]; rewrite Hdeps, Hkey;
          intros [= ?]; lia).
    destruct (useEffect_restart env' r1 id _ Hint Hclean)
      as (-> & -> & _).
    destruct (fetchDashboardData_frame env'
                (selectedTimeSlot (state (world r1))) (world r1))
      as (-> & -> & _).
    subst r1. cbn [set_world world]. rewrite Hsel, Hkey.
    split_and!; [done|lia|done].
  - destruct (interval_callback id' (intervals r)) as [sel|]; [|done].
    destruct (refreshInterval_keeps env sel (world r)) as (Hsel & Hkey & _).
    by cbn [set_world world mounted].
  - unfold run_cleanup. by rewrite Hclean.
Qed.

Lemma run_keys steps r :
  effect_invariant r → mounted r = true →
  let st := state (world r) in
  let st' := state (world (run steps r)) in
  refreshKey st' = (refreshKey st + clicks steps)%nat
  ∧ selectedTimeSlot st' = last_selected (selectedTimeSlot st) steps.
Proof.
  revert r. induction steps as [|[[env env'] a] steps IH]; intros r Hr Hm.
  { simpl. split; [lia|done]. }
  cbn zeta. rewrite run_cons.
  pose proof (step_keys env env' a r Hr Hm) as Hstep. cbn zeta in Hstep.
  pose proof (step_invariant env env' a r Hr) as Hr'.
  destruct a as [value| |id|]; destruct Hstep as (Hsel & Hkey & Hm').
  - destruct (IH _ Hr' Hm') as [-> ->]. cbn [clicks last_selected].
    by rewrite Hsel, Hkey.
  - destruct (IH _ Hr' Hm') as [-> ->]. cbn [clicks last_selected].
    rewrite Hsel, Hkey. split; [lia|done].
  - destruct (IH _ Hr' Hm') as [-> ->]. cbn [clicks last_selected].
    by rewrite Hsel, Hkey.
  - rewrite run_unmounted by done. cbn [clicks last_selected].
    rewrite Hsel, Hkey. split; [lia|done].
Qed.

(** The refresh counter is the number of clicks so far, and the filter
    is the one selected last, "all" when none was. *)
Theorem refreshKey_counts_clicks env steps :
  let st := state (world (run steps (mount env))) in
  refreshKey st = clicks steps
  ∧ selectedTimeSlot st = last_selected "all" steps.
Proof.
  intros st. subst st.
  destruct (run_keys steps (mount env) (mount_invariant env) eq_refl)
    as [-> ->].
  unfold mount, useEffect. cbn [world].
  destruct (fetchDashboardData_frame env
              (selectedTimeSlot (state {| state := initialState (StudentRef:=StudentRef); trace := [] |}))
              {| state := initialState; trace := [] |})
    as (-> & -> & _).
  done.
Qed.

(** *** The requests of a click and of a selection *)

Lemma fetchDashboardData_requests env sel w :
  requests (trace (fetchDashboardData env sel w).2)
  = requests (trace w)
    ++ statsUrl sel :: match stats_endpoint env (statsUrl sel) with
                       | Resolved _ => [attendanceUrl env sel]
                       | Rejected => []
                       end.
Proof.
  rewrite fetchDashboardData_cases. unfold requests.
  destruct (stats_endpoint env (statsUrl sel)) as [data|];
    [destruct (records_endpoint env (attendanceUrl env sel))|];
    simpl; by rewrite omap_app.
Qed.

Lemma onClick_requests env sel w :
  requests (trace (onClick env sel w).2)
  = requests (trace w) ++ [statsUrl sel; attendanceUrl env sel].
Proof.
  rewrite onClick_cases. unfold requests.
  destruct (stats_endpoint env (statsUrl sel)),
           (records_endpoint env (attendanceUrl env sel));
    simpl; by rewrite omap_app.
Qed.

(** A click asks for the statistics twice: the handler sends its two
    requests, and the bump of the refresh counter runs the effect again,
    which sends the statistics request once more, then the request for
    today's records if that one resolves; the old interval is cleared
    and a new one set. *)
Theorem click_fetches_twice env0 steps env env' :
  let r := run steps (mount env0) in
  mounted r = true →
  let sel := selectedTimeSlot (state (world r)) in
  let r' := step env env' Click r in
  requests (trace (world r'))
  = requests (trace (world r))
    ++ [statsUrl sel; attendanceUrl env sel]
    ++ statsUrl sel :: match stats_endpoint env' (statsUrl sel) with
                       | Resolved _ => [attendanceUrl env' sel]
                       | Rejected => []
                       end
  ∧ intervals r' = [(next_interval r, sel)].
Proof.
  intros r Hm sel r'.
  destruct (run_invariant steps _ (mount_invariant env0)) as [_ Hlive].
  fold r in Hlive. rewrite Hm in Hlive.
  destruct Hlive as (id & Hint & Hclean & Hdeps).
  destruct (onClick_keeps env sel (world r)) as (Hsel & Hkey & _).
  set (r1 := set_world (onClick env sel (world r)).2 r).
  assert (r' = useEffect env' (run_cleanup r1)) as ->.
  { subst r'. cbn [step]. rewrite Hm. apply commit_changed.
    subst r1. cbn [set_world world deps]. rewrite Hdeps. fold sel.
    rewrite Hkey. intros [= ?]. lia. }
  destruct (useEffect_restart env' r1 id _ Hint Hclean)
    as (-> & _ & -> & _).
  subst r1. cbn [set_world world next_interval]. rewrite Hsel.
  split; [|done].
  by rewrite fetchDashboardData_requests, onClick_requests,
    <-(assoc_L (++)).
Qed.

(** Selecting another filter sends one statistics request with the new
    filter, then the request for today's records if that one resolves,
    and replaces the interval by one whose callback captured the new
    filter; selecting the filter already selected sends nothing and
    leaves the interval in place. *)
Theorem select_refetches env0 steps env env' value :
  let r := run steps (mount env0) in
  mounted r = true →
  let r' := step env env' (Select value) r in
  if decide (value = selectedTimeSlot (state (world r))) then
    trace (world r') = trace (world r) ∧ intervals r' = intervals r
  else
    requests (trace (world r'))
    = requests (trace (world r))
      ++ statsUrl value :: match stats_endpoint env' (statsUrl value) with
                           | Resolved _ => [attendanceUrl env' value]
                           | Rejected => []
                           end
    ∧ intervals r' = [(next_interval r, value)].
Proof.
  intros r Hm r'.
  destruct (run_invariant steps _ (mount_invariant env0)) as [_ Hlive].
  fold r in Hlive. rewrite Hm in Hlive.
  destruct Hlive as (id & Hint & Hclean & Hdeps).
  set (r1 := set_world (onChange value (world r)).2 r).
  destruct (decide (value = selectedTimeSlot (state (world r))))
    as [Hsame|Hdiff].
  - assert (r' = r1) as ->; [|done].
    subst r'. cbn [step]. rewrite Hm. apply commit_same.
    subst r1. simpl. by rewrite Hdeps, Hsame.
  - assert (r' = useEffect env' (run_cleanup r1)) as ->.
    { subst r'. cbn [step]. rewrite Hm. apply commit_changed.
      subst r1. simpl. rewrite Hdeps. by intros [= ?]. }
    destruct (useEffect_restart env' r1 id _ Hint Hclean)
      as (-> & _ & -> & _).
    split; [|done]. by rewrite fetchDashboardData_requests.
Qed.

End lifecycle_facts.

(** ** The additional facts on the sample data *)

(** The session, step by step: the selection restarts the timer (0
    cleared, 1 set), the cleared timer's tick does nothing, the live
    one's asks with the morning slot, the click restarts the timer again
    (2 set), and after the unmount nothing is live. *)
Example session_run :
  let r := run Scenario.session (mount Sample.online) in
  requests (trace (world r))
  = ["/api/attendance/stats";
     "/api/attendance/date/2025-03-04";
     "/api/attendance/stats?startTime=09:00&endTime=10:00";
     "/api/attendance/timeslot?date=2025-03-04&startTime=09:00&endTime=10:00";
     "/api/attendance/timeslot?date=2025-03-04&startTime=09:00&endTime=10:00";
     "/api/attendance/stats?startTime=09:00&endTime=10:00";
     "/api/attendance/timeslot?date=2025-03-04&startTime=09:00&endTime=10:00";
     "/api/attendance/stats?startTime=09:00&endTime=10:00";
     "/api/attendance/timeslot?date=2025-03-04&startTime=09:00&endTime=10:00"]
  ∧ intervals r = [] ∧ mounted r = false
  ∧ refreshKey (state (world r)) = 1%nat
  ∧ intervals (run (take 4 Scenario.session) (mount Sample.online))
    = [(2%nat, "09:00-10:00")].
Proof. by vm_compute. Qed.

(** A start time with a dash does not come back from the option: the
    option "09-00-10:00" is split into "09" and "00". *)
Example dashed_start_time :
  statsUrl "09-00-10:00" = "/api/attendance/stats?startTime=09&endTime=00"
  ∧ replace "-" " - " "09-00-10:00" = "09 - 00-10:00".
Proof. done. Qed.

(** The worked example: two students for three rows, as "A" has two. *)
Lemma totalStudents_bounds_witness :
  Sample.three ≠ []
  ∧ let summary := calculateSummary (Some Sample.three) [] in
    (1 ≤ totalStudents summary ≤ length Sample.three)%nat
    ∧ (totalStudents summary = length Sample.three
       ↔ NoDup (student <$> Sample.three))
    ∧ (belowThreshold summary ≤ length Sample.three)%nat.
Proof.
  split; [discriminate|].
  apply (totalStudents_bounds Sample.three []). discriminate.
Defined.

(** The worked example with two rows exchanged, and another record. *)
Lemma summary_counts_Permutation_witness :
  Sample.three ≡ₚ Scenario.three_swapped
  ∧ let summary :=
      calculateSummary (Some Sample.three) [Sample.record "r1"] in
    let summary' :=
      calculateSummary (Some Scenario.three_swapped) [Sample.record "r2"] in
    totalStudents summary = totalStudents summary'
    ∧ belowThreshold summary = belowThreshold summary'
    ∧ presentToday summary = presentToday summary'.
Proof.
  split; [apply perm_swap|].
  apply (summary_counts_Permutation Sample.three Scenario.three_swapped);
    [apply perm_swap|reflexivity].
Defined.

(** The morning slot of the sample response. *)
Lemma option_round_trip_witness :
  "09:00" +:+ "-" +:+ "10:00" ∈ JsSet.to_array (slots Sample.slotted)
  ∧ statsUrl ("09:00" +:+ "-" +:+ "10:00")
    = "/api/attendance/stats?startTime=" +:+ "09:00"
        +:+ "&endTime=" +:+ "10:00"
  ∧ attendanceUrl Sample.online ("09:00" +:+ "-" +:+ "10:00")
    = "/api/attendance/timeslot?date=" +:+ "2025-03-04"
        +:+ "&startTime=" +:+ "09:00" +:+ "&endTime=" +:+ "10:00".
Proof.
  apply (option_round_trip Sample.online Sample.slotted
           (Sample.stat "A" 50 (Some "09:00") (Some "10:00"))
           "09:00" "10:00" "2025-03-04" "10:11:12.000Z");
    try reflexivity; try discriminate.
  apply list_elem_of_here.
Defined.

Lemma targets_dash_free_witness :
  "09:00-10:00" ≠ "all"
  ∧ ∃ a b, occurs "-" a = false ∧ occurs "-" b = false
           ∧ statsUrl "09:00-10:00"
             = "/api/attendance/stats?startTime=" +:+ a
                 +:+ "&endTime=" +:+ b
           ∧ attendanceUrl Sample.online "09:00-10:00"
             = "/api/attendance/timeslot?date="
                 +:+ interpolate
                       (split "T" (toISOString Sample.online) !! 0%nat)
                 +:+ "&startTime=" +:+ a +:+ "&endTime=" +:+ b.
Proof.
  split; [discriminate|].
  apply (targets_dash_free Sample.online "09:00-10:00"). discriminate.
Defined.

Lemma targets_ignore_tail_witness :
  statsUrl ("09:00" +:+ "-" +:+ "10:00" +:+ "-" +:+ "11:00")
  = statsUrl ("09:00" +:+ "-" +:+ "10:00")
  ∧ attendanceUrl Sample.online
      ("09:00" +:+ "-" +:+ "10:00" +:+ "-" +:+ "11:00")
    = attendanceUrl Sample.online ("09:00" +:+ "-" +:+ "10:00").
Proof.
  apply (targets_ignore_tail Sample.online "09:00" "10:00" "11:00");
    reflexivity.
Defined.

Lemma targets_dashless_witness :
  statsUrl "morning"
  = "/api/attendance/stats?startTime=" +:+ "morning" +:+ "&endTime=undefined"
  ∧ attendanceUrl Sample.online "morning"
    = "/api/attendance/timeslot?date="
        +:+ interpolate (split "T" (toISOString Sample.online) !! 0%nat)
        +:+ "&startTime=" +:+ "morning" +:+ "&endTime=undefined".
Proof.
  apply (targets_dashless Sample.online "morning");
    [discriminate|reflexivity].
Defined.

(** The morning slot is selected and the statistics come back empty. *)
Lemma selected_filter_not_offered_witness :
  let st' := state (fetchDashboardData Scenario.no_rows "09:00-10:00"
                      Scenario.morning_selected).2 in
  selectedTimeSlot st' = "09:00-10:00"
  ∧ "09:00-10:00" ∉ (timeSlotOptions st').*1.
Proof.
  apply (selected_filter_not_offered Scenario.no_rows "09:00-10:00"
           Scenario.morning_selected []);
    [reflexivity|discriminate|apply not_elem_of_nil|reflexivity].
Defined.

Lemma option_label_witness :
  ("09:00" +:+ "-" +:+ "10:00", "09:00" +:+ " - " +:+ "10:00")
  ∈ timeSlotOptions
      (state (fetchDashboardData Sample.online "all" Sample.mounted).2).
Proof.
  apply (option_label Sample.online "all" Sample.mounted Sample.slotted
           (Sample.stat "A" 50 (Some "09:00") (Some "10:00"))
           "09:00" "10:00");
    try reflexivity; try discriminate.
  apply list_elem_of_here.
Defined.

(** Mount while offline, then a tick once the backend is back. *)
Lemma presentToday_table_disagree_witness :
  let w' := (refreshInterval Sample.online "all"
               (fetchDashboardData Sample.offline "all"
                  Sample.mounted).2).2 in
  ∃ summary adminLink,
    Dashboard (Some Sample.admin) (state w')
    = Content summary [Sample.record "r1"; Sample.record "r2"] adminLink
    ∧ presentToday summary = 0%nat.
Proof.
  apply (presentToday_table_disagree Sample.offline Sample.online "all"
           (Some Sample.admin) Sample.mounted
           [Sample.record "r1"; Sample.record "r2"]);
    reflexivity.
Defined.

(** A click right after mount. *)
Lemma click_fetches_twice_witness :
  let r := run [] (mount Sample.online) in
  let sel := selectedTimeSlot (state (world r)) in
  let r' := step Sample.records_down Sample.online Click r in
  requests (trace (world r'))
  = requests (trace (world r))
    ++ [statsUrl sel; attendanceUrl Sample.records_down sel]
    ++ statsUrl sel
       :: match stats_endpoint Sample.online (statsUrl sel) with
          | Resolved _ => [attendanceUrl Sample.online sel]
          | Rejected => []
          end
  ∧ intervals r' = [(next_interval r, sel)].
Proof.
  apply (click_fetches_twice Sample.online [] Sample.records_down
           Sample.online).
  reflexivity.
Defined.

(** Selecting the morning slot right after mount. *)
Lemma select_refetches_witness :
  let r := run [] (mount Sample.online) in
  let r' := step Sample.online Sample.online (Select "09:00-10:00") r in
  if decide ("09:00-10:00" = selectedTimeSlot (state (world r))) then
    trace (world r') = trace (world r) ∧ intervals r' = intervals r
  else
    requests (trace (world r'))
    = requests (trace (world r))
      ++ statsUrl "09:00-10:00"
         :: match stats_endpoint Sample.online (statsUrl "09:00-10:00") with
            | Resolved _ => [attendanceUrl Sample.online "09:00-10:00"]
            | Rejected => []
            end
    ∧ intervals r' = [(next_interval r, "09:00-10:00")].
Proof.
  apply (select_refetches Sample.online [] Sample.online Sample.online
           "09:00-10:00").
  reflexivity.
Defined.
